(** * StreamAlert CLI runner (stream_alert_cli/runner.py)

    A shallow embedding of the command-line orchestrator: the confirmation
    prompt, the Terraform plan/apply wrapper, version rollback, Terraform
    file generation and Lambda deployment.  Python dictionaries are
    association lists whose order is the dictionary's iteration order;
    effects (external processes, console input, files written, the global
    CONFIG object) are threaded through an explicit world. *)

From Stdlib Require Import ZArith Lia Ascii String List Bool.
From stdpp Require Import base list strings.
Import ListNotations.
Local Open Scope string_scope.
Local Open Scope list_scope.

(** ** Python values stored in the configuration *)

Inductive pyval : Type :=
  | PyStr (s : string)
  | PyInt (z : Z)
  | PyList (l : list string).

Inductive exn : Type :=
  | KeyError (key : string)
  | ValueError
  | TypeError
  | InvalidClusterName (msg : string).

Inductive result (A : Type) : Type :=
  | Ok (a : A)
  | Err (e : exn).
Arguments Ok {A} a.
Arguments Err {A} e.

(** ** Dictionaries: association lists in iteration order *)

Module Dict.

Definition t (V : Type) : Type := list (string * V).

Fixpoint get {V} (d : t V) (k : string) : option V :=
  match d with
  | [] => None
  | (k', v) :: rest => if String.eqb k' k then Some v else get rest k
  end.

(** [d[k]]: raises KeyError on a missing key. *)
Definition getitem {V} (d : t V) (k : string) : result V :=
  match get d k with
  | Some v => Ok v
  | None => Err (KeyError k)
  end.

(** [d[k] = v]: an existing key keeps its place, a new one is added. *)
Fixpoint set {V} (d : t V) (k : string) (v : V) : t V :=
  match d with
  | [] => [(k, v)]
  | (k', v') :: rest =>
      if String.eqb k' k then (k', v) :: rest else (k', v') :: set rest k v
  end.

Definition keys {V} (d : t V) : list string := map fst d.

End Dict.

(** The CLIConfig object: the name of the variables file and the loaded
    two-level dictionary (section name, then entry name). *)
Record CLIConfig : Type := mkConfig {
  filename : string;
  config : Dict.t (Dict.t pyval)
}.

Definition cfg_getitem (c : CLIConfig) (k : string) : result (Dict.t pyval) :=
  Dict.getitem (config c) k.

Definition cfg_get (c : CLIConfig) (k : string) : option (Dict.t pyval) :=
  Dict.get (config c) k.

(** [CONFIG[k][e] = v]: the section object is fetched (KeyError when it is
    missing) and updated in place, so the change is seen through CONFIG. *)
Definition cfg_setitem2 (c : CLIConfig) (k e : string) (v : pyval)
  : result CLIConfig :=
  match cfg_getitem c k with
  | Ok sec => Ok (mkConfig (filename c) (Dict.set (config c) k (Dict.set sec e v)))
  | Err x => Err x
  end.

Definition cfg_getitem2 (c : CLIConfig) (k e : string) : result pyval :=
  match cfg_getitem c k with
  | Ok sec => Dict.getitem sec e
  | Err x => Err x
  end.

(** ** Python builtins used by the runner *)

Definition digit_of (c : ascii) : option Z :=
  let n := Z.of_nat (nat_of_ascii c) in
  if ((48 <=? n) && (n <=? 57))%Z then Some (n - 48)%Z else None.

Fixpoint digits_value (acc : Z) (s : string) : option Z :=
  match s with
  | EmptyString => Some acc
  | String c rest =>
      match digit_of c with
      | Some d => digits_value (10 * acc + d)%Z rest
      | None => None
      end
  end.

(** The configuration is loaded from JSON, so its strings are unicode;
    a character here is a code point below 256.  Among those the blanks
    of unicode are 9-13, 28-31, 32, 133 and 160. *)
Definition is_space (c : ascii) : bool :=
  let n := nat_of_ascii c in
  (Nat.eqb n 32 || (Nat.leb 9 n && Nat.leb n 13)
   || (Nat.leb 28 n && Nat.leb n 31) || Nat.eqb n 133 || Nat.eqb n 160)%bool.

Fixpoint lstrip (s : string) : string :=
  match s with
  | String c rest => if is_space c then lstrip rest else s
  | EmptyString => EmptyString
  end.

Fixpoint rstrip (s : string) : string :=
  match s with
  | EmptyString => EmptyString
  | String c rest =>
      match rstrip rest with
      | EmptyString => if is_space c then EmptyString else String c EmptyString
      | r => String c r
      end
  end.

Definition unsigned_value (s : string) : option Z :=
  match s with
  | EmptyString => None
  | _ => digits_value 0 s
  end.

(** [int(s)] on a string: surrounding blanks, an optional sign, decimal
    digits; anything else is a ValueError. *)
Definition int_of_string (s : string) : result Z :=
  let body := rstrip (lstrip s) in
  let parsed :=
    match body with
    | String "-" rest => option_map Z.opp (unsigned_value rest)
    | String "+" rest => unsigned_value rest
    | _ => unsigned_value body
    end in
  match parsed with
  | Some z => Ok z
  | None => Err ValueError
  end.

(** [int(v)] *)
Definition py_int (v : pyval) : result Z :=
  match v with
  | PyInt z => Ok z
  | PyStr s => int_of_string s
  | PyList _ => Err TypeError
  end.

(** [v != '$LATEST'] *)
Definition ne_latest (v : pyval) : bool :=
  match v with
  | PyStr s => negb (String.eqb s "$LATEST")
  | _ => true
  end.

Fixpoint digits_of_pos (fuel : nat) (n : Z) (acc : string) : string :=
  match fuel with
  | O => acc
  | S fuel' =>
      let acc' := String (ascii_of_nat (Z.to_nat (48 + n mod 10))) acc in
      if (n <? 10)%Z then acc' else digits_of_pos fuel' (n / 10)%Z acc'
  end.

Definition decimal (z : Z) : string :=
  if (z <? 0)%Z
  then String "-" (digits_of_pos (S (Z.to_nat (Z.log2 (- z)))) (- z) EmptyString)
  else digits_of_pos (S (Z.to_nat (Z.log2 z))) z EmptyString.

Fixpoint join_quoted (l : list string) : string :=
  match l with
  | [] => ""
  | [x] => "'" +:+ x +:+ "'"
  | x :: rest => "'" +:+ x +:+ "', " +:+ join_quoted rest
  end.

(** ['{}'.format(v)] *)
Definition py_format (v : pyval) : string :=
  match v with
  | PyStr s => s
  | PyInt z => decimal z
  | PyList l => "[" +:+ join_quoted l +:+ "]"
  end.

(** ** The world the commands act on *)

Inductive Processor : Type := RuleProcessor | AlertProcessor.

Inductive Event : Type :=
  | Run (args : list string) (quiet : bool) (ok : bool)
      (* an external process was run and reported success or failure *)
  | Prompt (reply : option string)
      (* the prompt was printed; the line read, if one was available *)
  | Build (p : Processor)
      (* a deployment package was created and uploaded *)
  | WriteFile (path contents : string).

Record World : Type := mkWorld {
  CONFIG : CLIConfig;
  stdin : list string;
  trace : list Event
}.

(** A call either returns, raises an exception of [exn], or does not get
    past a prompt: [Pending] is the outcome of a call that asked for a
    line when the lines of the console were used up.  On a console that
    stays open the call waits there; on one that was closed raw_input
    raises EOFError, which nothing in the runner catches.  Either way
    the call has not returned and nothing further happens, and
    [Pending] stands for both. *)
Inductive Outcome (A : Type) : Type :=
  | Ret (a : A)
  | Raise (e : exn)
  | Pending.
Arguments Ret {A} a.
Arguments Raise {A} e.
Arguments Pending {A}.

Definition M (A : Type) : Type := World -> Outcome A * World.

Definition ret {A} (a : A) : M A := fun w => (Ret a, w).

Definition bind {A B} (m : M A) (k : A -> M B) : M B :=
  fun w =>
    match m w with
    | (Ret a, w') => k a w'
    | (Raise e, w') => (Raise e, w')
    | (Pending, w') => (Pending, w')
    end.

Notation "x <- m ;; k" := (bind m (fun x => k))
  (at level 100, m at next level, right associativity).
Notation "m ;;; k" := (bind m (fun _ => k))
  (at level 100, right associativity).

Definition raise {A} (e : exn) : M A := fun w => (Raise e, w).

Definition lift {A} (r : result A) : M A :=
  match r with
  | Ok a => ret a
  | Err e => raise e
  end.

Definition get_CONFIG : M CLIConfig := fun w => (Ret (CONFIG w), w).

Definition put_CONFIG (c : CLIConfig) : M unit :=
  fun w => (Ret tt, mkWorld c (stdin w) (trace w)).

Definition emit (e : Event) : M unit :=
  fun w => (Ret tt, mkWorld (CONFIG w) (stdin w) (trace w ++ [e])).

(** [for x in xs: body(x)] *)
Fixpoint for_each {A} (xs : list A) (body : A -> M unit) : M unit :=
  match xs with
  | [] => ret tt
  | x :: rest => body x ;;; for_each rest body
  end.

(** The events a call added to the trace. *)
Definition events_since (w w' : World) : list Event :=
  drop (length (trace w)) (trace w').

(** ** continue_prompt *)

Definition required_responses : list string := ["yes"; "no"].

Definition in_required (response : string) : bool :=
  existsb (String.eqb response) required_responses.

(** [raw_input(prompt)]: the prompt is shown, then a line is read; with
    no line left the call does not return ([Pending]). *)
Definition raw_input : M string :=
  fun w =>
    match stdin w with
    | [] => (Pending, mkWorld (CONFIG w) [] (trace w ++ [Prompt None]))
    | line :: rest =>
        (Ret line, mkWorld (CONFIG w) rest (trace w ++ [Prompt (Some line)]))
    end.

(** The while loop of continue_prompt, by recursion on the lines still to
    be read: each turn of the loop reads one. *)
Fixpoint prompt_loop (response : string) (lines : list string) : M string :=
  if in_required response then ret response
  else
    match lines with
    | [] => raw_input ;;; (fun w => (Pending, w))
    | _ :: rest => r <- raw_input ;; prompt_loop r rest
    end.

Definition continue_prompt : M bool :=
  fun w =>
    (response <- prompt_loop "" (stdin w) ;;
     if String.eqb response "yes" then ret true else ret false) w.

(** ** Python list operations on a command line *)

(** [l.remove(x)]: drops the first occurrence, ValueError when absent. *)
Fixpoint list_remove_first (x : string) (l : list string)
  : result (list string) :=
  match l with
  | [] => Err ValueError
  | y :: rest =>
      if String.eqb y x then Ok rest
      else match list_remove_first x rest with
           | Ok rest' => Ok (y :: rest')
           | Err e => Err e
           end
  end.

(** Truth value of a keyword argument that is None or a string. *)
Definition truthy (a : option string) : bool :=
  match a with
  | Some s => negb (String.eqb s "")
  | None => false
  end.

Definition is_destroy (action : option string) : bool :=
  match action with
  | Some s => String.eqb s "destroy"
  | None => false
  end.

(** The second word of a command line: the Terraform verb. *)
Definition verb (e : Event) : option string :=
  match e with
  | Run args _ _ => args !! 1%nat
  | _ => None
  end.

(** A command that changes infrastructure. *)
Definition is_mutation (e : Event) : bool :=
  match verb e with
  | Some v => (String.eqb v "apply" || String.eqb v "destroy")%bool
  | None => false
  end.

Definition is_prompt (e : Event) : bool :=
  match e with
  | Prompt _ => true
  | _ => false
  end.

Definition is_write (e : Event) : bool :=
  match e with
  | WriteFile _ _ => true
  | _ => false
  end.

Definition is_build (e : Event) : bool :=
  match e with
  | Build _ => true
  | _ => false
  end.

Section Runner.

(** Modelled from the spec: CLIHelpers.run_command lives in
    stream_alert_cli/helpers.py, which is not part of the sources at hand.
    It runs the external process synchronously and returns true on a zero
    exit status and false otherwise.  The outcome of a process is given by
    the environment: it may depend on everything that happened before. *)
Variable exit_ok : list Event -> list string -> bool.

(** Modelled from the spec: the package builders of
    stream_alert_cli/package.py (create_and_upload), opaque here: a build
    may update CONFIG and may raise. *)
Variable create_and_upload : Processor -> CLIConfig -> result unit * CLIConfig.

(** Modelled from the spec: the jinja2 template of a cluster's Terraform
    file, as a function of the cluster name and its buckets. *)
Variable render : string -> option pyval -> string.

Definition run_command (args : list string) (quiet : bool) : M bool :=
  fun w =>
    let ok := exit_ok (trace w) args in
    (Ret ok, mkWorld (CONFIG w) (stdin w) (trace w ++ [Run args quiet ok])).

Definition terraform_check : M unit :=
  run_command ["terraform"; "version"] true ;;; ret tt.

Definition refresh_tf_state : M unit :=
  cfg <- get_CONFIG ;;
  region <- lift (cfg_getitem2 cfg "account" "region") ;;
  prefix <- lift (cfg_getitem2 cfg "account" "prefix") ;;
  let bucket := py_format prefix +:+ ".streamalert.terraform.state" in
  s3_key <- lift (cfg_getitem2 cfg "terraform" "tfstate_s3_key") ;;
  alias <- lift (cfg_getitem2 cfg "account" "kms_key_alias") ;;
  let kms_key_id := "alias/" +:+ py_format alias in
  let remote_state_opts :=
    [ "terraform"; "remote"; "config"; "-backend=s3";
      "-backend-config=bucket=" +:+ bucket;
      "-backend-config=key=" +:+ py_format s3_key;
      "-backend-config=region=" +:+ py_format region;
      "-backend-config=kms_key_id=" +:+ kms_key_id;
      "-backend-config=encrypt=true" ] in
  run_command remote_state_opts true ;;; ret tt.

(** The command line of the plan step (lines 209-213). *)
Definition plan_command (cfg : CLIConfig) (targets : list string)
    (action : option string) : list string :=
  let tf_opts := ["-var-file=../" +:+ filename cfg] in
  let tf_targets := map (fun x => "-target=" +:+ x) targets in
  let tf_command := ["terraform"; "plan"] ++ tf_opts ++ tf_targets in
  if is_destroy action then tf_command ++ ["-destroy"] else tf_command.

(** The command line of the last step, rewritten from the plan's
    (lines 226-236). *)
Definition final_command (tf_command : list string) (action : option string)
  : result (list string) :=
  let tf_action_index := 1%nat in
  if is_destroy action then
    list_remove_first "-destroy" (<[tf_action_index := "destroy"]> tf_command)
  else if truthy action then
    Ok (<[tf_action_index := default "" action]> tf_command)
  else
    Ok (<[tf_action_index := "apply"]> tf_command).

Definition tf_runner (targets : list string) (action : option string)
    (refresh_state : bool) : M bool :=
  cfg <- get_CONFIG ;;
  let tf_command := plan_command cfg targets action in
  (if refresh_state then refresh_tf_state else ret tt) ;;;
  run_command ["terraform"; "get"] true ;;;
  planned <- run_command tf_command false ;;
  tf_plan <- (if planned then continue_prompt else ret false) ;;
  if negb tf_plan then ret false
  else
    tf_command' <- lift (final_command tf_command action) ;;
    run_command tf_command' false ;;;
    ret true.

(** ** rollback *)

Definition rollback_one (cluster : string) (lambda_function : string)
  : M unit :=
  cfg <- get_CONFIG ;;
  current_vers <- lift (cfg_getitem2 cfg "{}_versions" cluster) ;;
  if ne_latest current_vers then
    current_vers <- lift (py_int current_vers) ;;
    if (1 <? current_vers)%Z then
      let new_vers := (current_vers - 1)%Z in
      cfg' <- lift (cfg_setitem2 cfg "{}_versions" cluster (PyInt new_vers)) ;;
      put_CONFIG cfg'
    else ret tt
  else ret tt.

Definition rollback : M unit :=
  cfg <- get_CONFIG ;;
  clusters_sec <- lift (cfg_getitem cfg "clusters") ;;
  let clusters := Dict.keys clusters_sec in
  for_each clusters (fun cluster =>
    for_each ["rule_processor"; "alert_processor"] (rollback_one cluster)).

(** ** generate_tf_files *)

Definition dict_truthy {V} (d : option (Dict.t V)) : bool :=
  match d with
  | Some (_ :: _) => true
  | _ => false
  end.

(** The buckets handed to the template (lines 292-295). *)
Definition cluster_buckets (all_buckets : option (Dict.t pyval))
    (cluster : string) : option pyval :=
  if dict_truthy all_buckets
  then Dict.get (default [] all_buckets) cluster
  else None.

(** The file written for a cluster (lines 297-299). *)
Definition cluster_file (all_buckets : option (Dict.t pyval))
    (cluster : string) : Event :=
  let contents := render cluster (cluster_buckets all_buckets cluster) in
  WriteFile ("terraform/" +:+ cluster +:+ ".tf") contents.

Definition generate_one (all_buckets : option (Dict.t pyval))
    (cluster : string) : M unit :=
  if String.eqb cluster "main" then
    raise (InvalidClusterName "Rename cluster main to something else!")
  else
    emit (cluster_file all_buckets cluster).

Definition generate_tf_files : M unit :=
  cfg <- get_CONFIG ;;
  let all_buckets := cfg_get cfg "s3_event_buckets" in
  clusters_sec <- lift (cfg_getitem cfg "clusters") ;;
  for_each (Dict.keys clusters_sec) (generate_one all_buckets).

(** ** deploy *)

Definition package_upload (p : Processor) : M unit :=
  fun w =>
    let '(r, cfg') := create_and_upload p (CONFIG w) in
    let w' := mkWorld cfg' (stdin w) (trace w ++ [Build p]) in
    match r with
    | Ok _ => (Ret tt, w')
    | Err e => (Raise e, w')
    end.

Definition deploy_rule_processor : M unit := package_upload RuleProcessor.
Definition deploy_alert_processor : M unit := package_upload AlertProcessor.

(** The targets of the module holding the Lambda functions, one per
    cluster (lines 315-316, and 70-71). *)
Definition stream_alert_targets (cfg : CLIConfig) : result (list string) :=
  match cfg_getitem cfg "clusters" with
  | Ok sec => Ok (map (fun x => "module.stream_alert_" +:+ x) (Dict.keys sec))
  | Err e => Err e
  end.

Definition deploy (processor : string) : M unit :=
  cfg <- get_CONFIG ;;
  targets <- lift (stream_alert_targets cfg) ;;
  (if String.eqb processor "rule" then deploy_rule_processor
   else if String.eqb processor "alert" then deploy_alert_processor
   else if String.eqb processor "all" then
     deploy_rule_processor ;;; deploy_alert_processor
   else ret tt) ;;;
  tf_runner targets None true ;;;
  ret tt.

(** ** terraform build: targets of a module *)

(** The targets of [--target m], one per cluster (lines 100-101). *)
Definition module_targets (cfg : CLIConfig) (target : string)
  : result (list string) :=
  match cfg_getitem cfg "clusters" with
  | Ok sec =>
      Ok (map (fun cluster => "module." +:+ target +:+ "_" +:+ cluster)
              (Dict.keys sec))
  | Err e => Err e
  end.

(** The 'build' subcommand of terraform_runner (lines 91-104). *)
Definition terraform_build (target : option string) : M unit :=
  terraform_check ;;;
  if truthy target then
    cfg <- get_CONFIG ;;
    targets <- lift (module_targets cfg (default "" target)) ;;
    tf_runner targets None true ;;; ret tt
  else
    tf_runner [] None true ;;; ret tt.

End Runner.

(** ** The other subcommands *)

Section Subcommands.

Variable exit_ok : list Event -> list string -> bool.
Variable create_and_upload : Processor -> CLIConfig -> result unit * CLIConfig.
Variable render : string -> option pyval -> string.

(** The resources built first by 'terraform init' (lines 118-124). *)
Definition init_targets : list string :=
  [ "aws_s3_bucket.lambda_source";
    "aws_s3_bucket.integration_testing";
    "aws_s3_bucket.terraform_remote_state";
    "aws_kms_key.stream_alert_secrets";
    "aws_kms_alias.stream_alert_secrets" ].

(** The 'generate' subcommand of terraform_runner (lines 91, 107-108). *)
Definition terraform_generate : M unit :=
  terraform_check exit_ok ;;;
  generate_tf_files render.

(** The 'init' subcommand of terraform_runner (lines 91, 111-134). *)
Definition terraform_init : M unit :=
  terraform_check exit_ok ;;;
  generate_tf_files render ;;;
  tf_runner exit_ok init_targets None false ;;;
  refresh_tf_state exit_ok ;;;
  deploy exit_ok create_and_upload "all" ;;;
  tf_runner exit_ok [] None true ;;;
  ret tt.

(** The 'destroy' subcommand of terraform_runner (lines 91, 139-141). *)
Definition terraform_destroy : M unit :=
  terraform_check exit_ok ;;;
  run_command exit_ok ["terraform"; "remote"; "config"; "-disable"] false ;;;
  tf_runner exit_ok [] (Some "destroy") false ;;;
  ret tt.

(** The 'rollback' subcommand of lambda_runner (lines 68-72). *)
Definition lambda_rollback : M unit :=
  rollback ;;;
  cfg <- get_CONFIG ;;
  targets <- lift (stream_alert_targets cfg) ;;
  tf_runner exit_ok targets None true ;;;
  ret tt.

End Subcommands.

(** ** Vocabulary of the statements *)

(** A reply the prompt does not accept. *)
Definition rejected_reply (line : string) : Prop :=
  line <> "yes" /\ line <> "no".

(** The prompt events of a run of replies. *)
Definition prompts (lines : list string) : list Event :=
  map (fun l => Prompt (Some l)) lines.

(** A version pointer: the sentinel or a positive number. *)
Definition is_pointer (v : pyval) : Prop :=
  v = PyStr "$LATEST" \/ exists n, v = PyInt n /\ (1 <= n)%Z.

(** The first plan command of a run, and what it reported. *)
Definition is_plan (e : Event) : bool :=
  match verb e with
  | Some v => String.eqb v "plan"
  | None => false
  end.

Definition plan_result (evs : list Event) : option bool :=
  match find is_plan evs with
  | Some (Run _ _ ok) => Some ok
  | _ => None
  end.

(** The module-resolution command. *)
Definition is_get (e : Event) : bool :=
  match e with
  | Run args _ _ => bool_decide (args = ["terraform"; "get"])
  | _ => false
  end.

(** What the state refresh adds to the trace: nothing when it is skipped,
    one quiet remote-config command otherwise. *)
Definition refresh_events (refresh_state : bool) (pre : list Event) : Prop :=
  if refresh_state
  then exists opts ok, pre = [Run opts true ok] /\ opts !! 1%nat = Some "remote"
  else pre = [].

(** What a run of tf_runner adds to the trace from the plan step on, with
    its outcome and the lines left on the console. *)
Inductive plan_apply (cmd : list string) (action : option string)
    (lines : list string)
  : list Event -> Outcome bool -> list string -> Prop :=
  | plan_failed :
      plan_apply cmd action lines [Run cmd false false] (Ret false) lines
  | plan_waiting :
      Forall rejected_reply lines ->
      plan_apply cmd action lines
        (Run cmd false true :: prompts lines ++ [Prompt None]) Pending []
  | plan_rejected pre post :
      Forall rejected_reply pre -> lines = pre ++ "no" :: post ->
      plan_apply cmd action lines
        (Run cmd false true :: prompts (pre ++ ["no"])) (Ret false) post
  | plan_confirmed pre post cmd' ok :
      Forall rejected_reply pre -> lines = pre ++ "yes" :: post ->
      final_command cmd action = Ok cmd' ->
      plan_apply cmd action lines
        (Run cmd false true :: prompts (pre ++ ["yes"]) ++ [Run cmd' false ok])
        (Ret true) post.

(** What is left of an outcome when the value returned is dropped. *)
Definition forget {A} (o : Outcome A) : Outcome unit :=
  match o with
  | Ret _ => Ret tt
  | Raise e => Raise e
  | Pending => Pending
  end.

(** How rollback may change a version pointer: the sentinel stays, a
    number stays a number, not larger and not below 1. *)
Definition pointer_step (v v' : pyval) : Prop :=
  (v = PyStr "$LATEST" /\ v' = PyStr "$LATEST") \/
  (exists n n', v = PyInt n /\ v' = PyInt n' /\ (1 <= n' <= n)%Z).

(** Every version pointer of [cfg] is still there in [cfg'], changed by
    at most a [pointer_step]. *)
Definition pointers_kept (cfg cfg' : CLIConfig) : Prop :=
  forall k e v,
    cfg_getitem2 cfg k e = Ok v -> is_pointer v ->
    exists v', cfg_getitem2 cfg' k e = Ok v' /\ pointer_step v v'.

(** The verb of the last command of tf_runner (lines 226-236). *)
Definition final_verb (action : option string) : string :=
  if is_destroy action then "destroy"
  else if truthy action then default "" action
  else "apply".

(** The flags shared by the plan and the command that follows it. *)
Definition shared_flags (cfg : CLIConfig) (targets : list string) : list string :=
  ("-var-file=../" +:+ filename cfg) :: map (fun x => "-target=" +:+ x) targets.

(** A computation that only ever adds to the trace. *)
Definition grows {A} (m : M A) : Prop :=
  forall w r w', m w = (r, w') -> exists evs, trace w' = trace w ++ evs.

(** The path of the file written for a cluster. *)
Definition tf_path (cluster : string) : string :=
  "terraform/" +:+ cluster +:+ ".tf".

(** An environment in which every command fails. *)
Definition never_ok : list Event -> list string -> bool :=
  fun _ _ => false.

(** A package builder that raises. *)
Definition upload_raises : Processor -> CLIConfig -> result unit * CLIConfig :=
  fun _ cfg => (Err ValueError, cfg).

(** A configuration with nothing but two well-named clusters. *)
Definition clusters_only_config : CLIConfig :=
  mkConfig "variables.json"
    [ ("clusters", [ ("prod", PyStr "us-east-1"); ("staging", PyStr "us-west-2") ]) ].

(** A configuration whose section under the unformatted key has a pointer
    for every cluster. *)
Definition template_pointers_config : CLIConfig :=
  mkConfig "variables.json"
    [ ("clusters", [ ("prod", PyStr "us-east-1"); ("staging", PyStr "us-west-2") ]);
      ("{}_versions", [ ("prod", PyInt 7); ("staging", PyStr "$LATEST") ]) ].

(** ** Sample configurations and environments *)

Definition sample_config : CLIConfig :=
  mkConfig "variables.json"
    [ ("account", [ ("region", PyStr "us-east-1"); ("prefix", PyStr "acme");
                    ("kms_key_alias", PyStr "stream_alert_secrets") ]);
      ("terraform", [ ("tfstate_s3_key", PyStr "stream_alert_state/terraform.tfstate") ]);
      ("clusters", [ ("prod", PyStr "us-east-1"); ("staging", PyStr "us-west-2") ]);
      ("rule_processor_versions", [ ("prod", PyInt 5); ("staging", PyStr "$LATEST") ]);
      ("alert_processor_versions", [ ("prod", PyInt 5); ("staging", PyInt 1) ]) ].

(** Environments: every command succeeds; only the apply fails; only the
    module resolution fails; only the plan fails. *)
Definition always_ok : list Event -> list string -> bool :=
  fun _ _ => true.

Definition apply_fails : list Event -> list string -> bool :=
  fun _ args =>
    match args !! 1%nat with
    | Some v => negb (String.eqb v "apply")
    | None => true
    end.


Definition plan_fails : list Event -> list string -> bool :=
  fun _ args =>
    match args !! 1%nat with
    | Some v => negb (String.eqb v "plan")
    | None => true
    end.

(** A package builder that succeeds and leaves CONFIG alone, and a
    template that only names the cluster. *)
Definition upload_ok : Processor -> CLIConfig -> result unit * CLIConfig :=
  fun _ cfg => (Ok tt, cfg).

Definition sample_render : string -> option pyval -> string :=
  fun cluster _ => "# cluster " +:+ cluster.

(** A configuration with a cluster of the reserved name, met second. *)
Definition reserved_config : CLIConfig :=
  mkConfig "variables.json"
    [ ("clusters", [ ("test", PyStr "us-east-1"); ("main", PyStr "us-west-2") ]) ].

(** A configuration that also has a section under the unformatted key. *)
Definition template_key_config : CLIConfig :=
  mkConfig "variables.json"
    [ ("clusters", [ ("prod", PyStr "us-east-1") ]);
      ("rule_processor_versions", [ ("prod", PyInt 5) ]);
      ("alert_processor_versions", [ ("prod", PyInt 5) ]);
      ("{}_versions", [ ("prod", PyInt 5) ]) ].

(** ** The confirmation prompt *)

Lemma in_required_false (line : string) :
  rejected_reply line <-> in_required line = false.
Proof.
  unfold rejected_reply, in_required, required_responses; simpl.
  destruct (String.eqb_spec line "yes"), (String.eqb_spec line "no");
    simpl; split; try tauto; try discriminate; intros [? ?]; congruence.
Qed.

Lemma in_required_true (line : string) :
  in_required line = true <-> line = "yes" \/ line = "no".
Proof.
  unfold in_required, required_responses; simpl.
  destruct (String.eqb_spec line "yes"), (String.eqb_spec line "no");
    simpl; split; try tauto; try discriminate; intros [? | ?]; congruence.
Qed.

Lemma prompt_loop_pending (pre : list string) :
  Forall rejected_reply pre ->
  forall r cfg tr, in_required r = false ->
    prompt_loop r pre (mkWorld cfg pre tr)
    = (Pending, mkWorld cfg [] (tr ++ prompts pre ++ [Prompt None])).
Proof.
  induction 1 as [| l pre Hl _ IH]; intros r cfg tr Hr.
  - simpl. rewrite Hr. reflexivity.
  - simpl. rewrite Hr. unfold bind, raw_input; simpl.
    rewrite IH by (apply in_required_false; exact Hl).
    rewrite <- app_assoc. reflexivity.
Qed.

Lemma prompt_loop_answer (pre : list string) :
  Forall rejected_reply pre ->
  forall r v post cfg tr, in_required r = false -> in_required v = true ->
    prompt_loop r (pre ++ v :: post) (mkWorld cfg (pre ++ v :: post) tr)
    = (Ret v, mkWorld cfg post (tr ++ prompts (pre ++ [v]))).
Proof.
  induction 1 as [| l pre Hl _ IH]; intros r v post cfg tr Hr Hv.
  - simpl. rewrite Hr. unfold bind, raw_input; simpl.
    destruct post; simpl; rewrite Hv; reflexivity.
  - simpl. rewrite Hr. unfold bind, raw_input; simpl.
    rewrite IH by (try apply in_required_false; assumption).
    rewrite <- app_assoc. reflexivity.
Qed.

(** Every run of replies is all rejected, or has a first accepted one. *)
Lemma first_accepted (lines : list string) :
  Forall rejected_reply lines \/
  exists pre v post, lines = pre ++ v :: post /\
    Forall rejected_reply pre /\ (v = "yes" \/ v = "no").
Proof.
  induction lines as [| l lines IH].
  - left. constructor.
  - destruct (in_required l) eqn:Hl.
    + right. exists [], l, lines. repeat split; [constructor |].
      apply in_required_true; exact Hl.
    + apply in_required_false in Hl.
      destruct IH as [IH | (pre & v & post & -> & Hpre & Hv)].
      * left. constructor; assumption.
      * right. exists (l :: pre), v, post. repeat split; [constructor |]; assumption.
Qed.

Lemma continue_prompt_pending cfg tr (pre : list string) :
  Forall rejected_reply pre ->
  continue_prompt (mkWorld cfg pre tr)
  = (Pending, mkWorld cfg [] (tr ++ prompts pre ++ [Prompt None])).
Proof.
  intros Hpre. unfold continue_prompt, bind; simpl.
  rewrite prompt_loop_pending by (assumption || reflexivity). reflexivity.
Qed.

Lemma continue_prompt_yes cfg tr (pre post : list string) :
  Forall rejected_reply pre ->
  continue_prompt (mkWorld cfg (pre ++ "yes" :: post) tr)
  = (Ret true, mkWorld cfg post (tr ++ prompts (pre ++ ["yes"]))).
Proof.
  intros Hpre. unfold continue_prompt, bind; simpl.
  rewrite prompt_loop_answer by (assumption || reflexivity). reflexivity.
Qed.

Lemma continue_prompt_no cfg tr (pre post : list string) :
  Forall rejected_reply pre ->
  continue_prompt (mkWorld cfg (pre ++ "no" :: post) tr)
  = (Ret false, mkWorld cfg post (tr ++ prompts (pre ++ ["no"]))).
Proof.
  intros Hpre. unfold continue_prompt, bind; simpl.
  rewrite prompt_loop_answer by (assumption || reflexivity). reflexivity.
Qed.

(** C6.  The confirmation prompt does not return while every reply typed
    so far is something other than the exact words yes or no: it is still
    waiting, having asked once more.  When the first accepted reply after
    such a run is yes it returns true, when it is no it returns false, and
    the lines after it are left unread.  Conversely it returns only after
    reading an accepted reply. *)
Theorem continue_prompt_gate cfg tr (pre : list string)
    (Hpre : Forall rejected_reply pre) :
  fst (continue_prompt (mkWorld cfg pre tr)) = Pending /\
  (forall post,
     continue_prompt (mkWorld cfg (pre ++ "yes" :: post) tr)
     = (Ret true, mkWorld cfg post (tr ++ prompts (pre ++ ["yes"])))) /\
  (forall post,
     continue_prompt (mkWorld cfg (pre ++ "no" :: post) tr)
     = (Ret false, mkWorld cfg post (tr ++ prompts (pre ++ ["no"])))) /\
  (forall lines b,
     fst (continue_prompt (mkWorld cfg lines tr)) = Ret b ->
     exists pre' post, Forall rejected_reply pre' /\
       lines = pre' ++ (if b then "yes" else "no") :: post).
Proof.
  repeat split.
  - rewrite continue_prompt_pending by assumption. reflexivity.
  - intros post. apply continue_prompt_yes; assumption.
  - intros post. apply continue_prompt_no; assumption.
  - intros lines b Hb.
    destruct (first_accepted lines) as [Hall | (p & v & q & -> & Hp & [-> | ->])].
    + rewrite continue_prompt_pending in Hb by assumption. discriminate.
    + rewrite continue_prompt_yes in Hb by assumption.
      injection Hb as <-. exists p, q. split; [assumption | reflexivity].
    + rewrite continue_prompt_no in Hb by assumption.
      injection Hb as <-. exists p, q. split; [assumption | reflexivity].
Qed.

Lemma rejected_samples : Forall rejected_reply ["Yes"; ""; "y"; "NO"; " yes"].
Proof. repeat constructor; discriminate. Qed.

Lemma continue_prompt_gate_witness :
  fst (continue_prompt (mkWorld sample_config ["Yes"; ""; "y"; "NO"; " yes"] []))
    = Pending /\
  fst (continue_prompt
         (mkWorld sample_config (["Yes"; ""; "y"; "NO"; " yes"] ++ ["yes"; "no"]) []))
    = Ret true /\
  fst (continue_prompt
         (mkWorld sample_config (["Yes"; ""; "y"; "NO"; " yes"] ++ ["no"; "yes"]) []))
    = Ret false.
Proof.
  destruct (continue_prompt_gate sample_config [] _ rejected_samples)
    as (H1 & H2 & H3 & _).
  split; [exact H1 |].
  split; [rewrite H2 | rewrite H3]; reflexivity.
Defined.

(** ** The plan/apply wrapper *)

Lemma events_since_app (w w' : World) (evs : list Event) :
  trace w' = trace w ++ evs -> events_since w w' = evs.
Proof.
  intros E. unfold events_since. rewrite E.
  rewrite drop_app_length. reflexivity.
Qed.

Lemma list_remove_first_In (x : string) (l : list string) :
  In x l -> exists l', list_remove_first x l = Ok l'.
Proof.
  induction l as [| y l IH]; simpl; [tauto |].
  intros [-> | Hin].
  - rewrite String.eqb_refl. eauto.
  - destruct (String.eqb y x); [eauto |].
    destruct (IH Hin) as [l' ->]. eauto.
Qed.

Lemma plan_command_head cfg targets action :
  exists rest,
    plan_command cfg targets action
    = "terraform" :: "plan" :: ("-var-file=../" +:+ filename cfg) :: rest.
Proof.
  unfold plan_command. destruct (is_destroy action); simpl; eauto.
Qed.

(** The last command keeps the variables file and only changes the verb. *)
Lemma final_command_head cfg targets action cmd' :
  final_command (plan_command cfg targets action) action = Ok cmd' ->
  exists v rest,
    cmd' = "terraform" :: v :: ("-var-file=../" +:+ filename cfg) :: rest /\
    v = (if is_destroy action then "destroy"
         else if truthy action then default "" action else "apply").
Proof.
  unfold final_command, plan_command.
  destruct (is_destroy action) eqn:Hd.
  - simpl. destruct (list_remove_first _ _) as [l |] eqn:Hl; [| discriminate].
    intros [= <-]. eauto.
  - destruct (truthy action); simpl; intros [= <-]; eauto.
Qed.

Lemma final_command_ok cfg targets action :
  exists cmd', final_command (plan_command cfg targets action) action = Ok cmd'.
Proof.
  unfold final_command, plan_command.
  destruct (is_destroy action) eqn:Hd.
  - apply list_remove_first_In. simpl. right. right. right.
    apply in_or_app. right. left. reflexivity.
  - destruct (truthy action); eauto.
Qed.

Section RunnerFacts.

Variable exit_ok : list Event -> list string -> bool.

Lemma refresh_tf_state_cases (w : World) :
  (exists e, refresh_tf_state exit_ok w = (Raise e, w)) \/
  (exists opts ok, opts !! 1%nat = Some "remote" /\
     refresh_tf_state exit_ok w
     = (Ret tt, mkWorld (CONFIG w) (stdin w) (trace w ++ [Run opts true ok]))).
Proof.
  unfold refresh_tf_state, bind, get_CONFIG, lift, raise, ret.
  destruct (cfg_getitem2 (CONFIG w) "account" "region"); [| left; eauto].
  destruct (cfg_getitem2 (CONFIG w) "account" "prefix"); [| left; eauto].
  destruct (cfg_getitem2 (CONFIG w) "terraform" "tfstate_s3_key"); [| left; eauto].
  destruct (cfg_getitem2 (CONFIG w) "account" "kms_key_alias"); [| left; eauto].
  right. unfold run_command. simpl. eexists _, _. split; [| reflexivity].
  reflexivity.
Qed.

(** Every run of tf_runner: either the state refresh raised before any
    command was run, or the trace grows by the refresh command (if
    asked for), the module resolution with the result the environment
    gives it, and the plan/confirm/apply steps. *)
Lemma tf_runner_shape_get targets action refresh_state w r w' :
  tf_runner exit_ok targets action refresh_state w = (r, w') ->
  (refresh_state = true /\ w' = w /\ exists e, r = Raise e) \/
  (CONFIG w' = CONFIG w /\
   exists pre ok tail,
     ok = exit_ok (trace w ++ pre) ["terraform"; "get"] /\
     refresh_events refresh_state pre /\
     trace w' = trace w ++ pre ++ Run ["terraform"; "get"] true ok :: tail /\
     plan_apply (plan_command (CONFIG w) targets action) action (stdin w)
       tail r (stdin w')).
Proof.
  unfold tf_runner, bind, get_CONFIG.
  set (cmd := plan_command (CONFIG w) targets action).
  assert (Hstep : forall w1 pre,
    CONFIG w1 = CONFIG w -> stdin w1 = stdin w ->
    trace w1 = trace w ++ pre ->
    (let (o, w2) := run_command exit_ok ["terraform"; "get"] true w1 in
     match o with
     | Ret _ =>
         let (o0, w3) := run_command exit_ok cmd false w2 in
         match o0 with
         | Ret planned =>
             let (o1, w4) :=
               (if planned then continue_prompt else ret false) w3 in
             match o1 with
             | Ret tf_plan =>
                 (if negb tf_plan then ret false
                  else tf_command' <- lift (final_command cmd action) ;;
                       run_command exit_ok tf_command' false ;;; ret true) w4
             | Raise e => (Raise e, w4)
             | Pending => (Pending, w4)
             end
         | Raise e => (Raise e, w3)
         | Pending => (Pending, w3)
         end
     | Raise e => (Raise e, w2)
     | Pending => (Pending, w2)
     end) = (r, w') ->
    CONFIG w' = CONFIG w /\
    exists ok tail,
      ok = exit_ok (trace w ++ pre) ["terraform"; "get"] /\
      trace w' = trace w ++ pre ++ Run ["terraform"; "get"] true ok :: tail /\
      plan_apply cmd action (stdin w) tail r (stdin w')).
  { intros [cfg1 in1 tr1] pre Hc Hs Ht. simpl in Hc, Hs, Ht. subst.
    unfold run_command at 1 2. simpl.
    set (ok1 := exit_ok _ ["terraform"; "get"]).
    set (tr2 := (trace w ++ pre) ++ [Run ["terraform"; "get"] true ok1]).
    assert (Htr2 : forall l, tr2 ++ l
              = trace w ++ pre ++ Run ["terraform"; "get"] true ok1 :: l).
    { intros l. unfold tr2. rewrite <- !app_assoc. reflexivity. }
    destruct (exit_ok tr2 cmd) eqn:Hplan.
    - destruct (first_accepted (stdin w))
        as [Hall | (p & v & q & Hl & Hp & [-> | ->])].
      + rewrite continue_prompt_pending by assumption.
        intros [= <- <-]. simpl. split; [reflexivity |].
        exists ok1, (Run cmd false true :: prompts (stdin w) ++ [Prompt None]).
        split; [reflexivity |].
        split; [rewrite <- Htr2, <- app_assoc; reflexivity |].
        constructor; assumption.
      + rewrite Hl. rewrite continue_prompt_yes by assumption. simpl.
        destruct (final_command_ok (CONFIG w) targets action) as [cmd' Hc'].
        fold cmd in Hc'. unfold bind, lift. rewrite Hc'. unfold ret, run_command.
        simpl. intros [= <- <-]. simpl. split; [reflexivity |].
        eexists ok1, _. split; [reflexivity |]. split.
        * rewrite <- Htr2, <- !app_assoc. simpl. reflexivity.
        * rewrite <- Hl. econstructor; eassumption.
      + rewrite Hl. rewrite continue_prompt_no by assumption. simpl.
        unfold ret. intros [= <- <-]. simpl. split; [reflexivity |].
        eexists ok1, _. split; [reflexivity |]. split.
        * rewrite <- Htr2, <- !app_assoc. simpl. reflexivity.
        * rewrite <- Hl. econstructor; eassumption.
    - unfold ret. simpl. intros [= <- <-]. simpl. split; [reflexivity |].
      exists ok1, [Run cmd false false]. split; [reflexivity |].
      split; [apply Htr2 | constructor]. }
  destruct refresh_state.
  - destruct (refresh_tf_state_cases w) as [[e He] | (opts & ok & Hv & He)];
      rewrite He.
    + intros [= <- <-]. left. eauto.
    + intros Hrun. right.
      apply (Hstep _ [Run opts true ok]) in Hrun; try reflexivity.
      destruct Hrun as (Hc & ok1 & tail & Hok & Ht & Hp). split; [exact Hc |].
      exists [Run opts true ok], ok1, tail. repeat split; try assumption.
      simpl. eauto.
  - unfold ret at 1. intros Hrun. right.
    apply (Hstep _ []) in Hrun; try reflexivity;
      [| simpl; rewrite app_nil_r; reflexivity].
    destruct Hrun as (Hc & ok1 & tail & Hok & Ht & Hp). split; [exact Hc |].
    exists [], ok1, tail. repeat split; assumption.
Qed.


(** The same, leaving out where the result of the module resolution
    comes from. *)
Lemma tf_runner_shape targets action refresh_state w r w' :
  tf_runner exit_ok targets action refresh_state w = (r, w') ->
  (refresh_state = true /\ w' = w /\ exists e, r = Raise e) \/
  (CONFIG w' = CONFIG w /\
   exists pre ok tail,
     refresh_events refresh_state pre /\
     trace w' = trace w ++ pre ++ Run ["terraform"; "get"] true ok :: tail /\
     plan_apply (plan_command (CONFIG w) targets action) action (stdin w)
       tail r (stdin w')).
Proof.
  intros Hrun. apply tf_runner_shape_get in Hrun.
  destruct Hrun as [H | (Hc & pre & ok & tail & _ & Hpre & Htr & Hp)];
    [left; exact H |].
  right. split; [exact Hc |]. exists pre, ok, tail. auto.
Qed.

End RunnerFacts.

Lemma prompts_In (x : option string) (lines : list string) :
  In (Prompt x) (prompts lines) -> exists l, x = Some l /\ In l lines.
Proof.
  unfold prompts. rewrite in_map_iff. intros (l & [= <-] & Hl). eauto.
Qed.

Lemma rejected_not_In (v : string) (lines : list string) :
  Forall rejected_reply lines -> v = "yes" \/ v = "no" -> ~ In v lines.
Proof.
  intros Hall Hv Hin. rewrite List.Forall_forall in Hall.
  destruct (Hall _ Hin) as [H1 H2]. destruct Hv; congruence.
Qed.

Lemma prompts_quiet (lines : list string) :
  Forall (fun e => is_mutation e = false /\ is_plan e = false /\ is_get e = false)
    (prompts lines).
Proof.
  unfold prompts. apply List.Forall_forall. intros e. rewrite in_map_iff.
  intros (l & <- & _). repeat split.
Qed.

Lemma refresh_events_quiet (refresh_state : bool) (pre : list Event) :
  refresh_events refresh_state pre ->
  Forall (fun e => is_mutation e = false /\ is_plan e = false /\
                   is_get e = false /\ is_prompt e = false) pre.
Proof.
  destruct refresh_state; simpl.
  - intros (opts & ok & -> & Hv). constructor; [| constructor].
    unfold is_mutation, is_plan, is_get, verb. rewrite Hv. repeat split.
    apply bool_decide_eq_false. intros ->. discriminate.
  - intros ->. constructor.
Qed.

Lemma plan_command_event cfg targets action (q ok : bool) :
  is_plan (Run (plan_command cfg targets action) q ok) = true /\
  is_mutation (Run (plan_command cfg targets action) q ok) = false /\
  is_get (Run (plan_command cfg targets action) q ok) = false.
Proof.
  destruct (plan_command_head cfg targets action) as [rest ->].
  repeat split.
Qed.

Lemma final_command_event cfg targets action cmd' (q ok : bool) :
  final_command (plan_command cfg targets action) action = Ok cmd' ->
  is_get (Run cmd' q ok) = false.
Proof.
  intros H. apply final_command_head in H. destruct H as (v & rest & -> & _).
  apply bool_decide_eq_false. discriminate.
Qed.

Lemma find_skip {A} (f : A -> bool) (l1 l2 : list A) :
  Forall (fun x => f x = false) l1 -> find f (l1 ++ l2) = find f l2.
Proof.
  induction 1 as [| x l1 Hx _ IH]; simpl; [reflexivity |].
  rewrite Hx. exact IH.
Qed.

Ltac weaken_all H :=
  eapply List.Forall_impl; [| exact H]; simpl; intros; tauto.

(** C1.  In every run of tf_runner in which the operator's reply to the
    confirmation prompt is no (the prompt returns false exactly when it
    reads that reply), the run returns false, none of the commands it
    issued is an apply or a destroy, and CONFIG is what it was. *)
Theorem tf_runner_rejected exit_ok targets action refresh_state w r w'
    (Hrun : tf_runner exit_ok targets action refresh_state w = (r, w'))
    (Hno : In (Prompt (Some "no")) (events_since w w')) :
  r = Ret false /\
  Forall (fun e => is_mutation e = false) (events_since w w') /\
  CONFIG w' = CONFIG w.
Proof.
  apply tf_runner_shape in Hrun.
  destruct Hrun as [(_ & -> & _) | (Hcfg & pre & ok & tail & Hpre & Htr & Hp)].
  - unfold events_since in Hno. rewrite drop_all in Hno. destruct Hno.
  - rewrite (events_since_app _ _ _ Htr) in *.
    apply refresh_events_quiet in Hpre.
    assert (Hnp : ~ In (Prompt (Some "no")) pre).
    { intros Hin. rewrite List.Forall_forall in Hpre.
      destruct (Hpre _ Hin) as (_ & _ & _ & Hq). discriminate. }
    apply in_app_or in Hno. destruct Hno as [Hno | [Hno | Hno]];
      [tauto | discriminate |].
    pose proof (plan_command_event (CONFIG w) targets action false) as Hpl.
    inversion Hp; subst; clear Hp.
    + destruct Hno as [Hno | []]. discriminate.
    + exfalso. destruct Hno as [Hno | Hno]; [discriminate |].
      apply in_app_or in Hno. destruct Hno as [Hno | [Hno | []]];
        [| discriminate].
      apply prompts_In in Hno. destruct Hno as (l & [= <-] & Hl).
      eapply rejected_not_In; eauto.
    + split; [reflexivity |]. split; [| exact Hcfg].
      apply List.Forall_app. split; [weaken_all Hpre |].
      constructor; [reflexivity |]. constructor; [apply Hpl |].
      weaken_all (prompts_quiet (pre0 ++ ["no"])).
    + exfalso. destruct Hno as [Hno | Hno]; [discriminate |].
      apply in_app_or in Hno. destruct Hno as [Hno | [Hno | []]];
        [| discriminate].
      apply prompts_In in Hno. destruct Hno as (l & [= <-] & Hl).
      apply in_app_or in Hl. destruct Hl as [Hl | [Hl | []]]; [| discriminate].
      eapply rejected_not_In; eauto.
Qed.

Lemma tf_runner_rejected_witness :
  let w := mkWorld sample_config ["maybe"; "no"] [] in
  let rw := tf_runner always_ok ["module.kinesis_prod"] None true w in
  fst rw = Ret false /\
  Forall (fun e => is_mutation e = false) (events_since w (snd rw)) /\
  CONFIG (snd rw) = CONFIG w.
Proof.
  intros w rw.
  apply (tf_runner_rejected always_ok ["module.kinesis_prod"] None true w
           (fst rw) (snd rw)).
  - reflexivity.
  - vm_compute. tauto.
Defined.

(** C2.  In every run of tf_runner, if the plan command reports failure
    then the run returns false with no prompt shown and no line read from
    the console; if the plan command reports success then the prompt is
    shown. *)
Theorem tf_runner_plan_gate exit_ok targets action refresh_state w r w'
    (Hrun : tf_runner exit_ok targets action refresh_state w = (r, w')) :
  (plan_result (events_since w w') = Some false ->
     r = Ret false /\
     Forall (fun e => is_prompt e = false) (events_since w w') /\
     stdin w' = stdin w) /\
  (plan_result (events_since w w') = Some true ->
     Exists (fun e => is_prompt e = true) (events_since w w')).
Proof.
  apply tf_runner_shape in Hrun.
  destruct Hrun as [(_ & -> & _) | (Hcfg & pre & ok & tail & Hpre & Htr & Hp)].
  - unfold events_since. rewrite drop_all. split; discriminate.
  - rewrite (events_since_app _ _ _ Htr).
    apply refresh_events_quiet in Hpre.
    pose proof (plan_command_event (CONFIG w) targets action false) as Hpl.
    assert (Hfind : forall b rest,
      plan_result (pre ++ Run ["terraform"; "get"] true ok
                     :: Run (plan_command (CONFIG w) targets action) false b :: rest)
      = Some b).
    { intros b rest. unfold plan_result.
      rewrite find_skip by (weaken_all Hpre). simpl.
      destruct (Hpl b) as (-> & _). reflexivity. }
    inversion Hp; subst; clear Hp; rewrite Hfind; split;
      try discriminate; intros _.
    + split; [reflexivity |]. split; [| reflexivity].
      apply List.Forall_app. split; [weaken_all Hpre |]. repeat constructor.
    + apply List.Exists_app. right. do 2 apply List.Exists_cons_tl.
      apply List.Exists_app. right. constructor. reflexivity.
    + apply List.Exists_app. right. do 2 apply List.Exists_cons_tl.
      unfold prompts. rewrite map_app. apply List.Exists_app. right.
      constructor. reflexivity.
    + apply List.Exists_app. right. do 2 apply List.Exists_cons_tl.
      apply List.Exists_app. left.
      unfold prompts. rewrite map_app. apply List.Exists_app. right.
      constructor. reflexivity.
Qed.

Lemma tf_runner_plan_gate_witness :
  let w := mkWorld sample_config ["yes"] [] in
  let rw := tf_runner plan_fails [] None true w in
  plan_result (events_since w (snd rw)) = Some false /\
  fst rw = Ret false /\
  Forall (fun e => is_prompt e = false) (events_since w (snd rw)) /\
  stdin (snd rw) = ["yes"].
Proof.
  intros w rw. split; [reflexivity |].
  apply (tf_runner_plan_gate plan_fails [] None true w (fst rw) (snd rw)
           eq_refl).
  reflexivity.
Defined.

(** C3.  The result of the last command is dropped: with a plan that
    succeeds, the operator answering yes and an apply that fails,
    tf_runner still returns true. *)
Theorem tf_runner_true_after_failed_apply :
  tf_runner apply_fails [] None false (mkWorld sample_config ["yes"] [])
  = (Ret true,
     mkWorld sample_config []
       [ Run ["terraform"; "get"] true true;
         Run ["terraform"; "plan"; "-var-file=../variables.json"] false true;
         Prompt (Some "yes");
         Run ["terraform"; "apply"; "-var-file=../variables.json"] false false ]).
Proof. reflexivity. Qed.

Lemma plan_apply_tail cfg targets action lines tail r lines' :
  plan_apply (plan_command cfg targets action) action lines tail r lines' ->
  exists ok post,
    tail = Run (plan_command cfg targets action) false ok :: post /\
    Forall (fun e => is_get e = false) post.
Proof.
  intros Hp. inversion Hp; subst; clear Hp; eexists _, _;
    (split; [reflexivity |]).
  - constructor.
  - apply List.Forall_app. split; [weaken_all (prompts_quiet lines) |].
    repeat constructor.
  - weaken_all (prompts_quiet (pre ++ ["no"])).
  - apply List.Forall_app. split; [weaken_all (prompts_quiet (pre ++ ["yes"])) |].
    constructor; [| constructor]. eapply final_command_event; eassumption.
Qed.

Lemma plan_apply_no_raise cmd action lines tail r lines' :
  plan_apply cmd action lines tail r lines' -> forall e, r <> Raise e.
Proof. intros H e. inversion H; subst; discriminate. Qed.

Lemma cfg_getitem2_error cfg (k e : string) x :
  cfg_getitem2 cfg k e = Err x -> exists key, x = KeyError key.
Proof.
  unfold cfg_getitem2, cfg_getitem, Dict.getitem.
  destruct (Dict.get (config cfg) k) as [sec |]; [| intros [= <-]; eauto].
  destruct (Dict.get sec e); [discriminate | intros [= <-]; eauto].
Qed.

Lemma refresh_tf_state_raises exit_ok (w : World) e w1 :
  refresh_tf_state exit_ok w = (Raise e, w1) ->
  w1 = w /\ exists key, e = KeyError key.
Proof.
  unfold refresh_tf_state, bind, get_CONFIG, lift, raise, ret.
  destruct (cfg_getitem2 (CONFIG w) "account" "region") eqn:H1;
    [| intros [= <- <-]; split; [reflexivity | eapply cfg_getitem2_error; eauto]].
  destruct (cfg_getitem2 (CONFIG w) "account" "prefix") eqn:H2;
    [| intros [= <- <-]; split; [reflexivity | eapply cfg_getitem2_error; eauto]].
  destruct (cfg_getitem2 (CONFIG w) "terraform" "tfstate_s3_key") eqn:H3;
    [| intros [= <- <-]; split; [reflexivity | eapply cfg_getitem2_error; eauto]].
  destruct (cfg_getitem2 (CONFIG w) "account" "kms_key_alias") eqn:H4;
    [| intros [= <- <-]; split; [reflexivity | eapply cfg_getitem2_error; eauto]].
  unfold run_command. simpl. discriminate.
Qed.

(** With the refresh, tf_runner is the refresh followed by tf_runner
    without it. *)
Lemma tf_runner_refresh_first exit_ok targets action (w : World) :
  tf_runner exit_ok targets action true w
  = (refresh_tf_state exit_ok ;;; tf_runner exit_ok targets action false) w.
Proof.
  unfold tf_runner, bind at 1 2 8, get_CONFIG.
  destruct (refresh_tf_state_cases exit_ok w) as [[x Hx] | (opts & ok & _ & Hx)];
    rewrite Hx; reflexivity.
Qed.

Lemma tf_runner_no_refresh_no_raise exit_ok targets action w e w' :
  tf_runner exit_ok targets action false w <> (Raise e, w').
Proof.
  intros Hrun. apply tf_runner_shape in Hrun.
  destruct Hrun as [(Hr & _) | (_ & pre & ok & tail & _ & _ & Hp)];
    [discriminate |].
  eapply plan_apply_no_raise; eauto.
Qed.

Lemma tf_runner_raise_key_error exit_ok targets action refresh_state w e w' :
  tf_runner exit_ok targets action refresh_state w = (Raise e, w') ->
  refresh_state = true /\ w' = w /\
  exists key, e = KeyError key /\
              refresh_tf_state exit_ok w = (Raise (KeyError key), w).
Proof.
  intros Hrun. destruct refresh_state.
  - split; [reflexivity |]. rewrite tf_runner_refresh_first in Hrun.
    unfold bind in Hrun.
    destruct (refresh_tf_state exit_ok w) as [[[] | e0 |] w1] eqn:Href.
    + exfalso. eapply tf_runner_no_refresh_no_raise; eauto.
    + injection Hrun as <- <-.
      destruct (refresh_tf_state_raises _ _ _ _ Href) as (-> & key & ->).
      split; [reflexivity |]. exists key. split; reflexivity.
    + discriminate.
  - exfalso. eapply tf_runner_no_refresh_no_raise; eauto.
Qed.





(** ** Targets of a module *)

Lemma append_inj_r (p a b : string) : p +:+ a = p +:+ b -> a = b.
Proof.
  induction p as [| c p IH]; simpl; [tauto |].
  intros [= H]. exact (IH H).
Qed.

Lemma NoDup_map_inj {A B} (f : A -> B) (l : list A) :
  (forall x y, f x = f y -> x = y) -> List.NoDup l -> List.NoDup (map f l).
Proof.
  intros Hinj. induction 1 as [| x l Hx _ IH]; simpl; constructor; [| exact IH].
  rewrite in_map_iff. intros (y & Hy & Hin).
  apply Hinj in Hy. subst y. exact (Hx Hin).
Qed.

(** C7, as the code has it.  For a module m the build command resolves one
    target per cluster of the configuration, each cluster giving its own
    target, written module.<m>_<cluster>, and runs tf_runner on them;
    those targets become the -target flags of the plan command.  Without
    a module tf_runner is run on no target, and the plan command carries
    no -target flag at all. *)
Theorem module_targets_per_cluster exit_ok (w : World) (m : string)
    (sec : Dict.t pyval)
    (Hsec : cfg_getitem (CONFIG w) "clusters" = Ok sec)
    (Huniq : List.NoDup (Dict.keys sec))
    (Hm : m <> "") :
  let cfg := CONFIG w in
  let targets :=
    map (fun cluster => "module." +:+ m +:+ "_" +:+ cluster) (Dict.keys sec) in
  module_targets cfg m = Ok targets /\
  length targets = length (Dict.keys sec) /\
  List.NoDup targets /\
  terraform_build exit_ok (Some m) w
  = (terraform_check exit_ok ;;; tf_runner exit_ok targets None true ;;; ret tt) w /\
  plan_command cfg targets None
  = ["terraform"; "plan"; "-var-file=../" +:+ filename cfg]
      ++ map (fun t => "-target=" +:+ t) targets /\
  terraform_build exit_ok None w
  = (terraform_check exit_ok ;;; tf_runner exit_ok [] None true ;;; ret tt) w /\
  plan_command cfg [] None
  = ["terraform"; "plan"; "-var-file=../" +:+ filename cfg].
Proof.
  intros cfg targets. unfold module_targets. subst cfg. rewrite Hsec.
  split; [reflexivity |].
  split; [apply length_map |].
  split.
  { apply NoDup_map_inj; [| exact Huniq].
    intros x y H. apply append_inj_r in H. apply append_inj_r in H.
    apply append_inj_r in H. exact H. }
  split; [| repeat split].
  unfold terraform_build, truthy.
  destruct (String.eqb_spec m "") as [-> | _]; [congruence |]. simpl.
  unfold bind, terraform_check, run_command, get_CONFIG, ret, bind. simpl.
  unfold module_targets. simpl. rewrite Hsec. reflexivity.
Qed.

Lemma module_targets_per_cluster_witness :
  let w := mkWorld sample_config ["yes"] [] in
  module_targets sample_config "kinesis"
    = Ok ["module.kinesis_prod"; "module.kinesis_staging"] /\
  terraform_build always_ok (Some "kinesis") w
    = (terraform_check always_ok ;;;
       tf_runner always_ok ["module.kinesis_prod"; "module.kinesis_staging"]
         None true ;;; ret tt) w /\
  plan_command sample_config ["module.kinesis_prod"; "module.kinesis_staging"] None
    = [ "terraform"; "plan"; "-var-file=../variables.json";
        "-target=module.kinesis_prod"; "-target=module.kinesis_staging" ] /\
  plan_command sample_config [] None
    = ["terraform"; "plan"; "-var-file=../variables.json"].
Proof.
  intros w.
  assert (Huniq : List.NoDup ["prod"; "staging"]).
  { repeat constructor; simpl; intuition discriminate. }
  assert (Hm : "kinesis" <> "") by discriminate.
  destruct (module_targets_per_cluster always_ok w "kinesis"
              [("prod", PyStr "us-east-1"); ("staging", PyStr "us-west-2")]
              eq_refl Huniq Hm) as (H1 & _ & _ & H2 & H3 & _ & H4).
  split; [exact H1 |]. split; [exact H2 |]. split; [exact H3 | exact H4].
Defined.

(** C7, as stated, fails: the targets of module kinesis are not
    kinesis_prod and kinesis_staging. *)
Lemma module_targets_not_bare :
  module_targets sample_config "kinesis"
  <> Ok (map (fun cluster => "kinesis" +:+ "_" +:+ cluster) ["prod"; "staging"]).
Proof. discriminate. Qed.

(** ** Generating the Terraform files *)

Lemma generate_loop_reserved render all_buckets (pre post : list string) :
  ~ In "main" pre ->
  forall cfg lines tr,
    for_each (pre ++ "main" :: post) (generate_one render all_buckets)
      (mkWorld cfg lines tr)
    = (Raise (InvalidClusterName "Rename cluster main to something else!"),
       mkWorld cfg lines (tr ++ map (cluster_file render all_buckets) pre)).
Proof.
  induction pre as [| c pre IH]; intros Hpre cfg lines tr.
  - simpl. unfold bind, generate_one, raise. simpl. rewrite app_nil_r. reflexivity.
  - simpl in Hpre. simpl. unfold bind at 1. unfold generate_one at 1.
    destruct (String.eqb_spec c "main") as [-> | _]; [tauto |].
    unfold emit. simpl. rewrite IH by tauto. rewrite <- app_assoc. reflexivity.
Qed.

(** C10, as the code has it.  When the cluster set contains the reserved
    name main, generate_tf_files raises InvalidClusterName; by then it has
    written the files of the clusters met before main, and it writes no
    file for main or for any cluster after it. *)
Theorem generate_tf_files_reserved render (w : World) (sec : Dict.t pyval)
    (pre post : list string)
    (Hsec : cfg_getitem (CONFIG w) "clusters" = Ok sec)
    (Hkeys : Dict.keys sec = pre ++ "main" :: post)
    (Hpre : ~ In "main" pre) :
  generate_tf_files render w
  = (Raise (InvalidClusterName "Rename cluster main to something else!"),
     mkWorld (CONFIG w) (stdin w)
       (trace w ++ map (cluster_file render (cfg_get (CONFIG w) "s3_event_buckets"))
                     pre)).
Proof.
  unfold generate_tf_files, bind, get_CONFIG, lift. rewrite Hsec. unfold ret.
  rewrite Hkeys. destruct w as [cfg lines tr]. simpl.
  apply generate_loop_reserved. exact Hpre.
Qed.

Lemma generate_tf_files_reserved_witness :
  generate_tf_files sample_render (mkWorld reserved_config [] [])
  = (Raise (InvalidClusterName "Rename cluster main to something else!"),
     mkWorld reserved_config []
       [WriteFile "terraform/test.tf" "# cluster test"]).
Proof.
  assert (Hpre : ~ In "main" ["test"]).
  { simpl. intuition discriminate. }
  exact (generate_tf_files_reserved sample_render
           (mkWorld reserved_config [] [])
           [("test", PyStr "us-east-1"); ("main", PyStr "us-west-2")]
           ["test"] [] eq_refl eq_refl Hpre).
Defined.

(** C10, as stated, fails: with clusters test and main, met in that
    order, the error is raised after the file of test was written. *)
Lemma generate_tf_files_writes_before_raising :
  let rw := generate_tf_files sample_render (mkWorld reserved_config [] []) in
  fst rw = Raise (InvalidClusterName "Rename cluster main to something else!") /\
  existsb is_write (trace (snd rw)) = true.
Proof. split; reflexivity. Qed.

(** ** Deploying the Lambda functions *)

Lemma plan_apply_no_build cmd action lines tail r lines' :
  plan_apply cmd action lines tail r lines' ->
  Forall (fun e => is_build e = false) tail.
Proof.
  assert (Hp : forall l, Forall (fun e => is_build e = false) (prompts l)).
  { intros l. unfold prompts. apply List.Forall_forall. intros e.
    rewrite in_map_iff. intros (x & <- & _). reflexivity. }
  intros H. inversion H; subst; clear H; repeat constructor;
    try apply List.Forall_app; try split; try apply Hp; repeat constructor.
Qed.

Lemma tf_runner_no_build exit_ok targets action refresh_state w r w' :
  tf_runner exit_ok targets action refresh_state w = (r, w') ->
  Forall (fun e => is_build e = false) (events_since w w').
Proof.
  intros Hrun. apply tf_runner_shape in Hrun.
  destruct Hrun as [(_ & -> & _) | (Hcfg & pre & ok & tail & Hpre & Htr & Hp)].
  - unfold events_since. rewrite drop_all. constructor.
  - rewrite (events_since_app _ _ _ Htr).
    apply List.Forall_app. split.
    + destruct refresh_state; simpl in Hpre.
      * destruct Hpre as (opts & ok0 & -> & _). repeat constructor.
      * subst pre. constructor.
    + constructor; [reflexivity |]. eapply plan_apply_no_build; eassumption.
Qed.

Lemma bind_assoc {A B C} (m : M A) (k : A -> M B) (h : B -> M C) (w : World) :
  bind (bind m k) h w = bind m (fun a => bind (k a) h) w.
Proof.
  unfold bind. destruct (m w) as [[a | e |] w1]; reflexivity.
Qed.

(** C9, as the code has it.  deploy runs the rule build for rule, the
    alert build for alert, and the rule build then the alert build for
    all, before the plan/apply cycle on the stream_alert module of every
    cluster.  For any other selector no build is run and nothing is
    raised on its account: deploy does exactly what that plan/apply cycle
    does. *)
Theorem deploy_selector exit_ok upload (processor : string) (w : World)
    (sec : Dict.t pyval)
    (Hsec : cfg_getitem (CONFIG w) "clusters" = Ok sec) :
  let targets := map (fun x => "module.stream_alert_" +:+ x) (Dict.keys sec) in
  let cycle := tf_runner exit_ok targets None true ;;; ret tt in
  (processor = "rule" ->
     deploy exit_ok upload processor w
     = (package_upload upload RuleProcessor ;;; cycle) w) /\
  (processor = "alert" ->
     deploy exit_ok upload processor w
     = (package_upload upload AlertProcessor ;;; cycle) w) /\
  (processor = "all" ->
     deploy exit_ok upload processor w
     = (package_upload upload RuleProcessor ;;;
        package_upload upload AlertProcessor ;;; cycle) w) /\
  (processor <> "rule" -> processor <> "alert" -> processor <> "all" ->
     forall r w', deploy exit_ok upload processor w = (r, w') ->
       Forall (fun e => is_build e = false) (events_since w w') /\
       exists r0, tf_runner exit_ok targets None true w = (r0, w') /\
                  r = forget r0).
Proof.
  intros targets cycle.
  assert (Hdep : forall body : M unit,
    (cfg <- get_CONFIG ;;
     targets <- lift (stream_alert_targets cfg) ;;
     body ;;; tf_runner exit_ok targets None true ;;; ret tt) w
    = (body ;;; cycle) w).
  { intros body. unfold bind at 1 2. unfold get_CONFIG, stream_alert_targets.
    rewrite Hsec. reflexivity. }
  repeat split.
  - intros ->. apply (Hdep (deploy_rule_processor upload)).
  - intros ->. apply (Hdep (deploy_alert_processor upload)).
  - intros ->.
    transitivity (((deploy_rule_processor upload ;;; deploy_alert_processor upload)
                   ;;; cycle) w).
    + exact (Hdep (deploy_rule_processor upload ;;; deploy_alert_processor upload)).
    + apply bind_assoc.
  - rename H into Hr; rename H0 into Ha; rename H1 into Hl;
      rename H2 into Hrun.
    assert (Hcyc : cycle w = (r, w')).
    { rewrite <- Hrun. unfold deploy.
      destruct (String.eqb_spec processor "rule"); [contradiction |].
      destruct (String.eqb_spec processor "alert"); [contradiction |].
      destruct (String.eqb_spec processor "all"); [contradiction |].
      rewrite (Hdep (ret tt)). reflexivity. }
    unfold cycle, bind in Hcyc.
    destruct (tf_runner exit_ok targets None true w) as [r0 w0] eqn:Htf.
    assert (w0 = w' /\ r = forget r0) as [-> ->].
    { destruct r0; injection Hcyc as <- <-; split; reflexivity. }
    apply tf_runner_no_build in Htf. exact Htf.
  - rename H into Hr; rename H0 into Ha; rename H1 into Hl;
      rename H2 into Hrun.
    assert (Hcyc : cycle w = (r, w')).
    { rewrite <- Hrun. unfold deploy.
      destruct (String.eqb_spec processor "rule"); [contradiction |].
      destruct (String.eqb_spec processor "alert"); [contradiction |].
      destruct (String.eqb_spec processor "all"); [contradiction |].
      rewrite (Hdep (ret tt)). reflexivity. }
    unfold cycle, bind in Hcyc.
    destruct (tf_runner exit_ok targets None true w) as [r0 w0] eqn:Htf.
    exists r0. destruct r0; injection Hcyc as <- <-; split; reflexivity.
Qed.

Lemma deploy_selector_witness :
  let w := mkWorld sample_config ["yes"] [] in
  let rw := deploy always_ok upload_ok "bogus" w in
  Forall (fun e => is_build e = false) (events_since w (snd rw)) /\
  exists r0,
    tf_runner always_ok
      ["module.stream_alert_prod"; "module.stream_alert_staging"] None true w
    = (r0, snd rw) /\ fst rw = forget r0.
Proof.
  intros w rw.
  destruct (deploy_selector always_ok upload_ok "bogus" w
              [("prod", PyStr "us-east-1"); ("staging", PyStr "us-west-2")]
              eq_refl) as (_ & _ & _ & H).
  apply (H ltac:(discriminate) ltac:(discriminate) ltac:(discriminate)
           (fst rw) (snd rw)).
  reflexivity.
Defined.

(** C9, as stated, fails: the selector bogus is not reported; deploy
    returns normally, having built nothing and applied the plan. *)
Lemma deploy_unknown_selector_silent :
  let rw := deploy always_ok upload_ok "bogus" (mkWorld sample_config ["yes"] []) in
  fst rw = Ret tt /\
  existsb is_build (trace (snd rw)) = false /\
  existsb is_mutation (trace (snd rw)) = true.
Proof. repeat split. Qed.

(** ** Rollback *)

(** C4.  rollback never reads or writes the pointers of the two
    functions: it looks up the unformatted key {}_versions.  With the
    pointers of both functions at 5 and no such section it raises KeyError
    and both stay 5; with such a section holding 5, that entry is lowered
    twice, to 3, and the pointers of the two functions still stay 5. *)
Theorem rollback_misses_function_pointers :
  rollback (mkWorld sample_config [] [])
    = (Raise (KeyError "{}_versions"), mkWorld sample_config [] []) /\
  cfg_getitem2 sample_config "rule_processor_versions" "prod" = Ok (PyInt 5) /\
  let rw := rollback (mkWorld template_key_config [] []) in
  fst rw = Ret tt /\
  cfg_getitem2 (CONFIG (snd rw)) "rule_processor_versions" "prod" = Ok (PyInt 5) /\
  cfg_getitem2 (CONFIG (snd rw)) "alert_processor_versions" "prod" = Ok (PyInt 5) /\
  cfg_getitem2 (CONFIG (snd rw)) "{}_versions" "prod" = Ok (PyInt 3).
Proof. repeat split. Qed.

Lemma Dict_get_set {V} (d : Dict.t V) (k k' : string) (v : V) :
  Dict.get (Dict.set d k v) k'
  = if String.eqb k k' then Some v else Dict.get d k'.
Proof.
  induction d as [| [k0 v0] d IH]; simpl.
  - destruct (String.eqb k k'); reflexivity.
  - destruct (String.eqb_spec k0 k) as [-> | Hne]; simpl.
    + destruct (String.eqb k k'); reflexivity.
    + rewrite IH. destruct (String.eqb_spec k0 k') as [-> | _]; [| reflexivity].
      destruct (String.eqb_spec k k'); [congruence | reflexivity].
Qed.

Lemma getitem2_setitem2 cfg cfg' (K E k e : string) (v : pyval) :
  cfg_setitem2 cfg K E v = Ok cfg' ->
  cfg_getitem2 cfg' k e
  = if (String.eqb K k && String.eqb E e)%bool then Ok v
    else cfg_getitem2 cfg k e.
Proof.
  unfold cfg_setitem2, cfg_getitem2, cfg_getitem, Dict.getitem.
  destruct (Dict.get (config cfg) K) as [sec |] eqn:HK; [| discriminate].
  intros [= <-]. simpl. rewrite Dict_get_set.
  destruct (String.eqb_spec K k) as [<- | _]; simpl; [| reflexivity].
  rewrite HK, Dict_get_set. destruct (String.eqb E e); reflexivity.
Qed.

Lemma pointer_step_refl (v : pyval) : is_pointer v -> pointer_step v v.
Proof.
  intros [-> | (n & -> & Hn)]; [left; tauto |].
  right. exists n, n. repeat split; lia.
Qed.

Lemma pointer_step_pointer (v v' : pyval) : pointer_step v v' -> is_pointer v'.
Proof.
  intros [[_ ->] | (n & n' & _ & -> & Hn)]; [left; reflexivity |].
  right. exists n'. split; [reflexivity | lia].
Qed.

Lemma pointer_step_trans (a b c : pyval) :
  pointer_step a b -> pointer_step b c -> pointer_step a c.
Proof.
  intros [[-> ->] | (n & n' & -> & -> & Hn)]
         [[Hb ->] | (m & m' & Hb & -> & Hm)]; try discriminate.
  - left. tauto.
  - injection Hb as <-. right. exists n, m'. repeat split; lia.
Qed.

Lemma pointers_kept_refl cfg : pointers_kept cfg cfg.
Proof.
  intros k e v Hv Hp. exists v. split; [exact Hv | apply pointer_step_refl, Hp].
Qed.

Lemma pointers_kept_trans c1 c2 c3 :
  pointers_kept c1 c2 -> pointers_kept c2 c3 -> pointers_kept c1 c3.
Proof.
  intros H12 H23 k e v Hv Hp.
  destruct (H12 k e v Hv Hp) as (v2 & Hv2 & Hs2).
  destruct (H23 k e v2 Hv2 (pointer_step_pointer _ _ Hs2)) as (v3 & Hv3 & Hs3).
  exists v3. split; [exact Hv3 | eapply pointer_step_trans; eassumption].
Qed.

(** A loop keeps what each of its turns keeps. *)
Lemma for_each_kept {A} (body : A -> M unit) :
  (forall x w r w', body x w = (r, w') -> pointers_kept (CONFIG w) (CONFIG w')) ->
  forall xs w r w',
    for_each xs body w = (r, w') -> pointers_kept (CONFIG w) (CONFIG w').
Proof.
  intros Hbody. induction xs as [| x xs IH]; intros w r w'; simpl.
  - intros [= <- <-]. apply pointers_kept_refl.
  - unfold bind. destruct (body x w) as [o w1] eqn:Hx.
    apply Hbody in Hx. destruct o.
    + intros Hrest. apply IH in Hrest. eapply pointers_kept_trans; eassumption.
    + intros [= <- <-]. exact Hx.
    + intros [= <- <-]. exact Hx.
Qed.

Lemma rollback_one_kept cluster lambda_function w r w' :
  rollback_one cluster lambda_function w = (r, w') ->
  pointers_kept (CONFIG w) (CONFIG w').
Proof.
  unfold rollback_one, bind, get_CONFIG, lift, raise, ret, put_CONFIG.
  destruct (cfg_getitem2 (CONFIG w) "{}_versions" cluster) as [cur | e] eqn:Hcur;
    [| intros [= <- <-]; apply pointers_kept_refl].
  destruct (ne_latest cur) eqn:Hne;
    [| intros [= <- <-]; apply pointers_kept_refl].
  destruct (py_int cur) as [n | e] eqn:Hint;
    [| intros [= <- <-]; apply pointers_kept_refl].
  destruct (Z.ltb_spec 1 n) as [Hn | Hn];
    [| intros [= <- <-]; apply pointers_kept_refl].
  destruct (cfg_setitem2 (CONFIG w) "{}_versions" cluster (PyInt (n - 1)))
    as [cfg' | e] eqn:Hset;
    [| intros [= <- <-]; apply pointers_kept_refl].
  intros [= <- <-]. simpl.
  intros k e v Hv Hp. rewrite (getitem2_setitem2 _ _ _ _ k e _ Hset).
  destruct (String.eqb_spec "{}_versions" k) as [<- | _]; simpl.
  - destruct (String.eqb_spec cluster e) as [<- | _].
    + rewrite Hcur in Hv. injection Hv as ->.
      exists (PyInt (n - 1)). split; [reflexivity |].
      destruct Hp as [-> | (m & -> & Hm)]; [discriminate |].
      simpl in Hint. injection Hint as ->.
      right. exists n, (n - 1)%Z. repeat split; lia.
    + exists v. split; [exact Hv | apply pointer_step_refl, Hp].
  - exists v. split; [exact Hv | apply pointer_step_refl, Hp].
Qed.

(** C5.  Whatever rollback does, and however it ends, a version pointer
    that was the sentinel or a positive number before is afterwards still
    in place: the sentinel is still the sentinel, and a number is a number
    not larger than before and at least 1. *)
Theorem rollback_keeps_pointers (w : World) r w' (k e : string) (v : pyval)
    (Hrun : rollback w = (r, w'))
    (Hv : cfg_getitem2 (CONFIG w) k e = Ok v)
    (Hp : is_pointer v) :
  exists v',
    cfg_getitem2 (CONFIG w') k e = Ok v' /\
    is_pointer v' /\
    (v = PyStr "$LATEST" -> v' = PyStr "$LATEST") /\
    (forall n, v = PyInt n -> exists n', v' = PyInt n' /\ (1 <= n' <= n)%Z).
Proof.
  assert (Hkept : pointers_kept (CONFIG w) (CONFIG w')).
  { revert Hrun. unfold rollback, bind at 1 2, get_CONFIG, lift.
    destruct (cfg_getitem (CONFIG w) "clusters") as [sec | x];
      [| intros [= <- <-]; apply pointers_kept_refl].
    unfold ret. apply for_each_kept. intros cluster w1 r1 w1'.
    apply for_each_kept. apply rollback_one_kept. }
  destruct (Hkept k e v Hv Hp) as (v' & Hv' & Hs).
  exists v'. split; [exact Hv' |].
  split; [eapply pointer_step_pointer; eassumption |].
  destruct Hs as [[-> ->] | (n & n' & -> & -> & Hn)]; split;
    try discriminate; try tauto.
  intros m [= <-]. eauto.
Qed.

Lemma rollback_keeps_pointers_witness :
  let rw := rollback (mkWorld template_key_config [] []) in
  exists v',
    cfg_getitem2 (CONFIG (snd rw)) "{}_versions" "prod" = Ok v' /\
    is_pointer v' /\
    (PyInt 5 = PyStr "$LATEST" -> v' = PyStr "$LATEST") /\
    (forall n, PyInt 5 = PyInt n -> exists n', v' = PyInt n' /\ (1 <= n' <= n)%Z).
Proof.
  intros rw.
  apply (rollback_keeps_pointers (mkWorld template_key_config [] [])
           (fst rw) (snd rw) "{}_versions" "prod" (PyInt 5)).
  - reflexivity.
  - reflexivity.
  - right. exists 5%Z. split; [reflexivity | lia].
Defined.


(** ** Further properties of the prompt and of the plan/apply wrapper *)

(** X1.  continue_prompt never touches CONFIG.  It reads a prefix of
    the console lines and shows the prompt once for each line it read.
    It returns right after the first yes or no, which tells the result,
    leaving the later lines unread.  When no line is yes or no it reads
    them all, shows the prompt once more and does not return. *)
Theorem continue_prompt_effects (w : World) r w'
    (Hrun : continue_prompt w = (r, w')) :
  CONFIG w' = CONFIG w /\
  exists used,
    stdin w = used ++ stdin w' /\
    trace w' = trace w ++ prompts used
                 ++ match r with Ret _ => [] | _ => [Prompt None] end /\
    (forall b, r = Ret b ->
       exists pre, used = pre ++ [if b then "yes" else "no"] /\
                   Forall rejected_reply pre) /\
    ((forall b, r <> Ret b) -> stdin w' = [] /\ Forall rejected_reply used).
Proof.
  destruct w as [cfg lines tr]. simpl.
  destruct (first_accepted lines) as [Hall | (p & v & q & -> & Hp & [-> | ->])].
  - rewrite continue_prompt_pending in Hrun by assumption.
    injection Hrun as <- <-. simpl. split; [reflexivity |].
    exists lines. rewrite app_nil_r. repeat split; try assumption.
    intros b Hb. discriminate.
  - rewrite continue_prompt_yes in Hrun by assumption.
    injection Hrun as <- <-. simpl. split; [reflexivity |].
    exists (p ++ ["yes"]). rewrite <- app_assoc, app_nil_r.
    split; [reflexivity |]. split; [reflexivity |]. split.
    + intros b [= <-]. exists p. split; [reflexivity | assumption].
    + intros Hn. exfalso. apply (Hn true). reflexivity.
  - rewrite continue_prompt_no in Hrun by assumption.
    injection Hrun as <- <-. simpl. split; [reflexivity |].
    exists (p ++ ["no"]). rewrite <- app_assoc, app_nil_r.
    split; [reflexivity |]. split; [reflexivity |]. split.
    + intros b [= <-]. exists p. split; [reflexivity | assumption].
    + intros Hn. exfalso. apply (Hn false). reflexivity.
Qed.

Lemma continue_prompt_effects_witness :
  let w := mkWorld sample_config ["y"; "yes"; "no"] [] in
  let rw := continue_prompt w in
  fst rw = Ret true /\
  CONFIG (snd rw) = CONFIG w /\
  exists used,
    stdin w = used ++ stdin (snd rw) /\
    trace (snd rw) = trace w ++ prompts used
                       ++ match fst rw with Ret _ => [] | _ => [Prompt None] end /\
    (forall b, fst rw = Ret b ->
       exists pre, used = pre ++ [if b then "yes" else "no"] /\
                   Forall rejected_reply pre) /\
    ((forall b, fst rw <> Ret b) ->
       stdin (snd rw) = [] /\ Forall rejected_reply used).
Proof.
  intros w rw. split; [reflexivity |].
  exact (continue_prompt_effects w (fst rw) (snd rw) eq_refl).
Defined.

Lemma plan_apply_stdin cmd action lines tail r lines' :
  plan_apply cmd action lines tail r lines' ->
  exists used, lines = used ++ lines'.
Proof.
  intros H. inversion H; subst; clear H.
  - exists []. reflexivity.
  - exists lines. rewrite app_nil_r. reflexivity.
  - exists (pre ++ ["no"]). rewrite <- app_assoc. reflexivity.
  - exists (pre ++ ["yes"]). rewrite <- app_assoc. reflexivity.
Qed.

Lemma plan_apply_no_write cmd action lines tail r lines' :
  plan_apply cmd action lines tail r lines' ->
  Forall (fun e => is_write e = false) tail.
Proof.
  assert (Hp : forall l, Forall (fun e => is_write e = false) (prompts l)).
  { intros l. unfold prompts. apply List.Forall_forall. intros e.
    rewrite in_map_iff. intros (x & <- & _). reflexivity. }
  intros H. inversion H; subst; clear H; repeat constructor;
    try apply List.Forall_app; try split; try apply Hp; repeat constructor.
Qed.

(** X2.  tf_runner never changes CONFIG, writes no file and builds no
    package: it only adds commands and prompts to the trace, and reads a
    prefix of the console lines. *)
Theorem tf_runner_frame exit_ok targets action refresh_state w r w'
    (Hrun : tf_runner exit_ok targets action refresh_state w = (r, w')) :
  CONFIG w' = CONFIG w /\
  (exists used, stdin w = used ++ stdin w') /\
  exists evs,
    trace w' = trace w ++ evs /\
    Forall (fun e => is_write e = false /\ is_build e = false) evs.
Proof.
  pose proof (tf_runner_no_build _ _ _ _ _ _ _ Hrun) as Hnb.
  apply tf_runner_shape in Hrun.
  destruct Hrun as [(_ & -> & _) | (Hcfg & pre & ok & tail & Hpre & Htr & Hp)].
  - split; [reflexivity |]. split; [exists []; reflexivity |].
    exists []. rewrite app_nil_r. split; [reflexivity | constructor].
  - split; [exact Hcfg |]. split; [eapply plan_apply_stdin; eassumption |].
    eexists. split; [exact Htr |].
    rewrite (events_since_app _ _ _ Htr) in Hnb.
    assert (Hnw : Forall (fun e => is_write e = false)
                    (pre ++ Run ["terraform"; "get"] true ok :: tail)).
    { apply List.Forall_app. split.
      - destruct refresh_state; simpl in Hpre.
        + destruct Hpre as (opts & ok0 & -> & _). repeat constructor.
        + subst pre. constructor.
      - constructor; [reflexivity |]. eapply plan_apply_no_write; eassumption. }
    rewrite List.Forall_forall in *. intros e He. split; auto.
Qed.

Lemma tf_runner_frame_witness :
  let w := mkWorld sample_config ["maybe"; "yes"; "no"] [] in
  let rw := tf_runner always_ok ["module.kinesis_prod"] None true w in
  CONFIG (snd rw) = CONFIG w /\
  (exists used, stdin w = used ++ stdin (snd rw)) /\
  exists evs,
    trace (snd rw) = trace w ++ evs /\
    Forall (fun e => is_write e = false /\ is_build e = false) evs.
Proof.
  intros w rw.
  exact (tf_runner_frame always_ok ["module.kinesis_prod"] None true w
           (fst rw) (snd rw) eq_refl).
Defined.

(** X3.  Turning the plan command into the last command never fails:
    the -destroy flag that remove looks for is always there.  So, the
    end of the console's input at the prompt apart (see [Pending]), the
    only exception that comes out of tf_runner is a KeyError of the
    state refresh, for an entry missing from CONFIG; it comes before
    any command was run and leaves everything as it was.  When the
    refresh is skipped or returns, tf_runner raises none of the
    exceptions of [exn]: it returns, or stops at the prompt. *)
Theorem tf_runner_raises_only_on_refresh exit_ok targets action refresh_state
    w r w'
    (Hrun : tf_runner exit_ok targets action refresh_state w = (r, w')) :
  (forall e, r = Raise e ->
     refresh_state = true /\ w' = w /\
     exists key, e = KeyError key /\
                 refresh_tf_state exit_ok w = (Raise (KeyError key), w)) /\
  (refresh_state = false \/
   (exists w1, refresh_tf_state exit_ok w = (Ret tt, w1)) ->
   (exists b, r = Ret b) \/ r = Pending) /\
  exists cmd', final_command (plan_command (CONFIG w) targets action) action
               = Ok cmd'.
Proof.
  split; [| split; [| apply final_command_ok]].
  - intros e ->. eapply tf_runner_raise_key_error; eassumption.
  - intros Hok. destruct r as [b | e |]; [eauto | | auto].
    exfalso. apply tf_runner_raise_key_error in Hrun.
    destruct Hrun as (-> & _ & key & _ & Href).
    destruct Hok as [? | (w1 & Hw1)]; congruence.
Qed.

Lemma tf_runner_raises_only_on_refresh_witness :
  let w := mkWorld clusters_only_config ["yes"] [] in
  let rw := tf_runner always_ok ["module.kinesis_prod"] (Some "destroy") true w in
  let rw' := tf_runner always_ok ["module.kinesis_prod"] (Some "destroy") false w in
  fst rw = Raise (KeyError "account") /\
  (exists key, KeyError "account" = KeyError key /\
               refresh_tf_state always_ok w = (Raise (KeyError key), w)) /\
  fst rw' = Ret true /\
  ((exists b, fst rw' = Ret b) \/ fst rw' = Pending).
Proof.
  intros w rw rw'.
  destruct (tf_runner_raises_only_on_refresh always_ok ["module.kinesis_prod"]
              (Some "destroy") true w (fst rw) (snd rw) eq_refl) as (H1 & _ & _).
  destruct (tf_runner_raises_only_on_refresh always_ok ["module.kinesis_prod"]
              (Some "destroy") false w (fst rw') (snd rw') eq_refl) as (_ & H2 & _).
  split; [reflexivity |].
  split; [apply (H1 (KeyError "account") eq_refl) |].
  split; [reflexivity |].
  apply H2. left. reflexivity.
Defined.

Lemma list_remove_first_last (x : string) (l : list string) :
  Forall (fun y => String.eqb y x = false) l ->
  list_remove_first x (l ++ [x]) = Ok l.
Proof.
  induction 1 as [| y l Hy _ IH]; simpl.
  - rewrite String.eqb_refl. reflexivity.
  - rewrite Hy, IH. reflexivity.
Qed.

(** The last command has the flags of the plan, the -destroy flag apart. *)
Lemma final_command_exact cfg targets action :
  final_command (plan_command cfg targets action) action
  = Ok ("terraform" :: final_verb action :: shared_flags cfg targets).
Proof.
  unfold final_command, plan_command, final_verb, shared_flags.
  destruct (is_destroy action) eqn:Hd.
  - change (list_remove_first "-destroy"
              (("terraform" :: "destroy" :: ("-var-file=../" +:+ filename cfg)
                  :: map (fun x => "-target=" +:+ x) targets) ++ ["-destroy"])
            = Ok ("terraform" :: "destroy" :: ("-var-file=../" +:+ filename cfg)
                    :: map (fun x => "-target=" +:+ x) targets)).
    apply list_remove_first_last.
    repeat (constructor; [reflexivity |]).
    apply List.Forall_forall. intros y. rewrite in_map_iff.
    intros (t & <- & _). reflexivity.
  - destruct (truthy action); reflexivity.
Qed.

Lemma plan_command_flags cfg targets action :
  plan_command cfg targets action
  = "terraform" :: "plan" :: shared_flags cfg targets
      ++ (if is_destroy action then ["-destroy"] else []).
Proof.
  unfold plan_command, shared_flags.
  destruct (is_destroy action); simpl; [reflexivity |].
  rewrite app_nil_r. reflexivity.
Qed.

(** X4.  When tf_runner returns true, the last two things that happened
    are the operator's yes and one command: terraform, the verb (apply,
    or the action asked for), and exactly the -var-file and -target flags
    of the plan, without -destroy; the plan had succeeded, and nothing
    before the last command changed infrastructure.  When it does not
    return true, no apply or destroy was run at all. *)
Theorem tf_runner_confirmed_run exit_ok targets action refresh_state w r w'
    (Hrun : tf_runner exit_ok targets action refresh_state w = (r, w')) :
  (r = Ret true ->
     exists pre ok,
       events_since w w'
       = pre ++ [ Prompt (Some "yes");
                  Run ("terraform" :: final_verb action
                         :: shared_flags (CONFIG w) targets) false ok ] /\
       In (Run ("terraform" :: "plan" :: shared_flags (CONFIG w) targets
                  ++ (if is_destroy action then ["-destroy"] else []))
               false true) pre /\
       Forall (fun e => is_mutation e = false) pre) /\
  (r <> Ret true ->
     Forall (fun e => is_mutation e = false) (events_since w w')).
Proof.
  apply tf_runner_shape in Hrun.
  destruct Hrun as [(_ & -> & e & ->) | (Hcfg & pre & ok & tail & Hpre & Htr & Hp)].
  - split; [discriminate |]. intros _.
    unfold events_since. rewrite drop_all. constructor.
  - rewrite (events_since_app _ _ _ Htr).
    apply refresh_events_quiet in Hpre.
    pose proof (plan_command_event (CONFIG w) targets action false) as Hpl.
    inversion Hp; subst; clear Hp.
    + split; [discriminate |]. intros _.
      apply List.Forall_app. split; [weaken_all Hpre |].
      constructor; [reflexivity |]. constructor; [apply Hpl | constructor].
    + split; [discriminate |]. intros _.
      apply List.Forall_app. split; [weaken_all Hpre |].
      constructor; [reflexivity |]. constructor; [apply Hpl |].
      apply List.Forall_app. split; [weaken_all (prompts_quiet (stdin w)) |].
      repeat constructor.
    + split; [discriminate |]. intros _.
      apply List.Forall_app. split; [weaken_all Hpre |].
      constructor; [reflexivity |]. constructor; [apply Hpl |].
      weaken_all (prompts_quiet (pre0 ++ ["no"])).
    + split; [| congruence]. intros _.
      rewrite final_command_exact in H1. injection H1 as <-.
      exists (pre ++ Run ["terraform"; "get"] true ok
                :: Run (plan_command (CONFIG w) targets action) false true
                :: prompts pre0), ok0.
      split; [| split].
      * unfold prompts. rewrite map_app. simpl.
        rewrite <- ?app_assoc. simpl. rewrite <- ?app_assoc. reflexivity.
      * apply in_or_app. right. right. left.
        rewrite plan_command_flags. reflexivity.
      * apply List.Forall_app. split; [weaken_all Hpre |].
        constructor; [reflexivity |]. constructor; [apply Hpl |].
        weaken_all (prompts_quiet pre0).
Qed.

Lemma tf_runner_confirmed_run_witness :
  let w := mkWorld sample_config ["maybe"; "yes"] [] in
  let rw := tf_runner always_ok ["module.kinesis_prod"] (Some "destroy") false w in
  exists pre ok,
    events_since w (snd rw)
    = pre ++ [ Prompt (Some "yes");
               Run ("terraform" :: final_verb (Some "destroy")
                      :: shared_flags (CONFIG w) ["module.kinesis_prod"]) false ok ] /\
    In (Run ("terraform" :: "plan" :: shared_flags (CONFIG w) ["module.kinesis_prod"]
               ++ ["-destroy"]) false true) pre /\
    Forall (fun e => is_mutation e = false) pre.
Proof.
  intros w rw.
  apply (tf_runner_confirmed_run always_ok ["module.kinesis_prod"]
           (Some "destroy") false w (fst rw) (snd rw) eq_refl).
  reflexivity.
Defined.

(** ** The state refresh *)




(** ** Further properties of rollback *)

(** A loop keeps a relation between worlds that each of its turns keeps. *)
Lemma for_each_rel {A} (R : World -> World -> Prop) (body : A -> M unit) :
  (forall w, R w w) ->
  (forall a b c, R a b -> R b c -> R a c) ->
  (forall x w r w', body x w = (r, w') -> R w w') ->
  forall xs w r w', for_each xs body w = (r, w') -> R w w'.
Proof.
  intros Hrefl Htrans Hbody. induction xs as [| x xs IH]; intros w r w'; simpl.
  - intros [= <- <-]. apply Hrefl.
  - unfold bind. destruct (body x w) as [o w1] eqn:Hx.
    apply Hbody in Hx. destruct o.
    + intros Hrest. apply IH in Hrest. eapply Htrans; eassumption.
    + intros [= <- <-]. exact Hx.
    + intros [= <- <-]. exact Hx.
Qed.

Lemma rollback_one_frame cluster lambda_function w r w' :
  rollback_one cluster lambda_function w = (r, w') ->
  trace w' = trace w /\ stdin w' = stdin w /\
  filename (CONFIG w') = filename (CONFIG w) /\
  forall k, k <> "{}_versions" -> cfg_get (CONFIG w') k = cfg_get (CONFIG w) k.
Proof.
  unfold rollback_one, bind, get_CONFIG, lift, raise, ret, put_CONFIG.
  destruct (cfg_getitem2 (CONFIG w) "{}_versions" cluster) as [cur | e];
    [| intros [= <- <-]; auto].
  destruct (ne_latest cur); [| intros [= <- <-]; auto].
  destruct (py_int cur) as [n | e]; [| intros [= <- <-]; auto].
  destruct (1 <? n)%Z; [| intros [= <- <-]; auto].
  unfold cfg_setitem2.
  destruct (cfg_getitem (CONFIG w) "{}_versions") as [sec | e];
    [| intros [= <- <-]; auto].
  intros [= <- <-]. simpl. repeat split.
  intros k Hk. unfold cfg_get. simpl. rewrite Dict_get_set.
  destruct (String.eqb_spec "{}_versions" k); [congruence | reflexivity].
Qed.

Lemma rollback_frame_all (w : World) r w' :
  rollback w = (r, w') ->
  trace w' = trace w /\ stdin w' = stdin w /\
  filename (CONFIG w') = filename (CONFIG w) /\
  forall k, k <> "{}_versions" -> cfg_get (CONFIG w') k = cfg_get (CONFIG w) k.
Proof.
  set (R := fun a b : World =>
    trace b = trace a /\ stdin b = stdin a /\
    filename (CONFIG b) = filename (CONFIG a) /\
    forall k, k <> "{}_versions" -> cfg_get (CONFIG b) k = cfg_get (CONFIG a) k).
  assert (Hrefl : forall a, R a a) by (intros a; unfold R; auto).
  assert (Htrans : forall a b c, R a b -> R b c -> R a c).
  { unfold R. intros a b c (H1 & H2 & H3 & H4) (G1 & G2 & G3 & G4).
    repeat split; try congruence.
    intros k0 Hk0. rewrite G4, H4 by assumption. reflexivity. }
  unfold rollback, bind at 1 2, get_CONFIG, lift.
  destruct (cfg_getitem (CONFIG w) "clusters") as [sec | x];
    [| intros [= <- <-]; apply Hrefl].
  unfold ret. apply (for_each_rel R); try assumption.
  intros cluster w1 r1 w1'. apply (for_each_rel R); try assumption.
  intros f w2 r2 w2'. apply rollback_one_frame.
Qed.

(** X6.  rollback runs no command and reads nothing from the console,
    and the only part of CONFIG it can change is the section under the
    key {}_versions: the file name and every other section, the
    clusters among them, stay as they were, however rollback ends. *)
Theorem rollback_frame (w : World) r w' (k : string)
    (Hrun : rollback w = (r, w'))
    (Hk : k <> "{}_versions") :
  trace w' = trace w /\ stdin w' = stdin w /\
  filename (CONFIG w') = filename (CONFIG w) /\
  cfg_get (CONFIG w') k = cfg_get (CONFIG w) k.
Proof.
  destruct (rollback_frame_all w r w' Hrun) as (H1 & H2 & H3 & H4). auto.
Qed.

Lemma rollback_frame_witness :
  let w := mkWorld template_key_config ["yes"] [] in
  let rw := rollback w in
  trace (snd rw) = trace w /\ stdin (snd rw) = stdin w /\
  filename (CONFIG (snd rw)) = filename (CONFIG w) /\
  cfg_get (CONFIG (snd rw)) "rule_processor_versions"
  = cfg_get (CONFIG w) "rule_processor_versions".
Proof.
  intros w rw.
  apply (rollback_frame w (fst rw) (snd rw) "rule_processor_versions" eq_refl).
  discriminate.
Defined.

Lemma for_each_returns {A} (I : World -> Prop) (body : A -> M unit)
    (xs : list A) :
  (forall x, In x xs -> forall w, I w ->
     exists w', body x w = (Ret tt, w') /\ I w') ->
  forall w, I w -> exists w', for_each xs body w = (Ret tt, w') /\ I w'.
Proof.
  induction xs as [| x xs IH]; intros Hbody w Hw; simpl.
  - exists w. split; [reflexivity | exact Hw].
  - destruct (Hbody x (or_introl eq_refl) w Hw) as (w1 & Hx & Hw1).
    unfold bind. rewrite Hx. apply IH; [| exact Hw1].
    intros y Hy. apply Hbody. right. exact Hy.
Qed.

Lemma rollback_one_returns cluster lambda_function (w : World) (v : pyval) :
  cfg_getitem2 (CONFIG w) "{}_versions" cluster = Ok v ->
  is_pointer v ->
  exists w', rollback_one cluster lambda_function w = (Ret tt, w').
Proof.
  intros Hv Hp. unfold rollback_one, bind, get_CONFIG, lift, raise, ret, put_CONFIG.
  rewrite Hv. destruct Hp as [-> | (n & -> & Hn)]; simpl; [eauto |].
  destruct (1 <? n)%Z; [| eauto].
  unfold cfg_setitem2. unfold cfg_getitem2 in Hv.
  destruct (cfg_getitem (CONFIG w) "{}_versions"); [eauto | discriminate].
Qed.

(** X7.  When the section under the key {}_versions holds, for every
    cluster, the sentinel or a positive number, rollback returns normally,
    and afterwards that section still holds the sentinel or a positive
    number for every cluster. *)
Theorem rollback_completes (w : World) (sec : Dict.t pyval)
    (Hsec : cfg_getitem (CONFIG w) "clusters" = Ok sec)
    (Hptr : forall c, In c (Dict.keys sec) ->
       exists v, cfg_getitem2 (CONFIG w) "{}_versions" c = Ok v /\ is_pointer v) :
  fst (rollback w) = Ret tt /\
  forall c, In c (Dict.keys sec) ->
    exists v, cfg_getitem2 (CONFIG (snd (rollback w))) "{}_versions" c = Ok v /\
              is_pointer v.
Proof.
  set (I := fun a : World => forall c, In c (Dict.keys sec) ->
     exists v, cfg_getitem2 (CONFIG a) "{}_versions" c = Ok v /\ is_pointer v).
  assert (Hone : forall c f, In c (Dict.keys sec) -> forall a, I a ->
            exists a', rollback_one c f a = (Ret tt, a') /\ I a').
  { intros c f Hc a Ha. destruct (Ha c Hc) as (v & Hv & Hp).
    destruct (rollback_one_returns c f a v Hv Hp) as (a' & Hrun).
    exists a'. split; [exact Hrun |].
    apply rollback_one_kept in Hrun. intros c' Hc'.
    destruct (Ha c' Hc') as (v' & Hv' & Hp').
    destruct (Hrun _ _ _ Hv' Hp') as (v'' & Hv'' & Hs).
    exists v''. split; [exact Hv'' | eapply pointer_step_pointer; eassumption]. }
  assert (Hall : exists w', for_each (Dict.keys sec) (fun cluster =>
              for_each ["rule_processor"; "alert_processor"] (rollback_one cluster)) w
            = (Ret tt, w') /\ I w').
  { apply (for_each_returns I); [| exact Hptr].
    intros c Hc a Ha. apply (for_each_returns I); [| exact Ha].
    intros f _ b Hb. apply Hone; assumption. }
  destruct Hall as (w' & Hrun & Hw').
  assert (Hroll : rollback w = (Ret tt, w')).
  { unfold rollback, bind at 1 2, get_CONFIG, lift. rewrite Hsec. exact Hrun. }
  rewrite Hroll. split; [reflexivity | exact Hw'].
Qed.

Lemma rollback_completes_witness :
  let w := mkWorld template_pointers_config [] [] in
  fst (rollback w) = Ret tt /\
  forall c, In c ["prod"; "staging"] ->
    exists v, cfg_getitem2 (CONFIG (snd (rollback w))) "{}_versions" c = Ok v /\
              is_pointer v.
Proof.
  intros w.
  apply (rollback_completes w
           [("prod", PyStr "us-east-1"); ("staging", PyStr "us-west-2")] eq_refl).
  intros c [<- | [<- | []]].
  - exists (PyInt 7). split; [reflexivity |]. right. exists 7%Z.
    split; [reflexivity | lia].
  - exists (PyStr "$LATEST"). split; [reflexivity |]. left. reflexivity.
Defined.

(** ** Further properties of the file generation *)

Lemma generate_loop_all render all_buckets (clusters : list string) :
  ~ In "main" clusters ->
  forall cfg lines tr,
    for_each clusters (generate_one render all_buckets) (mkWorld cfg lines tr)
    = (Ret tt,
       mkWorld cfg lines (tr ++ map (cluster_file render all_buckets) clusters)).
Proof.
  induction clusters as [| c clusters IH]; intros Hno cfg lines tr.
  - simpl. rewrite app_nil_r. reflexivity.
  - simpl in Hno. simpl. unfold bind at 1. unfold generate_one at 1.
    destruct (String.eqb_spec c "main") as [-> | _]; [tauto |].
    unfold emit. simpl. rewrite IH by tauto. rewrite <- app_assoc. reflexivity.
Qed.

Lemma length_append (a b : string) :
  String.length (a +:+ b) = (String.length a + String.length b)%nat.
Proof. induction a as [| c a IH]; simpl; [reflexivity | rewrite IH; reflexivity]. Qed.

Lemma append_inj_l (s a b : string) : a +:+ s = b +:+ s -> a = b.
Proof.
  revert b. induction a as [| c a IH]; intros [| d b] H; simpl in H.
  - reflexivity.
  - exfalso. apply (f_equal String.length) in H.
    rewrite !length_append in H. simpl in H. lia.
  - exfalso. apply (f_equal String.length) in H.
    rewrite !length_append in H. simpl in H. lia.
  - injection H as -> H. f_equal. apply IH. exact H.
Qed.

Lemma tf_path_inj (a b : string) : tf_path a = tf_path b -> a = b.
Proof.
  unfold tf_path. intros H. apply append_inj_r in H.
  apply append_inj_l in H. exact H.
Qed.

Lemma lookup_map {A B} (f : A -> B) (l : list A) (i : nat) (x : A) :
  l !! i = Some x -> map f l !! i = Some (f x).
Proof.
  revert i. induction l as [| y l IH]; intros [| i]; simpl; try discriminate.
  - intros [= ->]. reflexivity.
  - apply IH.
Qed.

(** X8.  When no cluster carries the reserved name, generate_tf_files
    returns normally having written exactly one file per cluster, in the
    order of the clusters, at terraform/<cluster>.tf; clusters with
    different names get different files; CONFIG and the console are left
    alone and no command is run. *)
Theorem generate_tf_files_all render (w : World) (sec : Dict.t pyval)
    (Hsec : cfg_getitem (CONFIG w) "clusters" = Ok sec)
    (Hno : ~ In "main" (Dict.keys sec)) :
  let files :=
    map (cluster_file render (cfg_get (CONFIG w) "s3_event_buckets"))
        (Dict.keys sec) in
  generate_tf_files render w
  = (Ret tt, mkWorld (CONFIG w) (stdin w) (trace w ++ files)) /\
  (forall i cluster, Dict.keys sec !! i = Some cluster ->
     exists contents, files !! i = Some (WriteFile (tf_path cluster) contents)) /\
  (List.NoDup (Dict.keys sec) -> List.NoDup (map tf_path (Dict.keys sec))).
Proof.
  intros files. split; [| split].
  - unfold generate_tf_files, bind, get_CONFIG, lift. rewrite Hsec. unfold ret.
    destruct w as [cfg lines tr]. simpl. apply generate_loop_all. exact Hno.
  - intros i cluster Hi. unfold files.
    rewrite (lookup_map _ _ _ _ Hi). unfold cluster_file, tf_path. eauto.
  - apply NoDup_map_inj. apply tf_path_inj.
Qed.

Lemma generate_tf_files_all_witness :
  let w := mkWorld sample_config [] [] in
  generate_tf_files sample_render w
  = (Ret tt,
     mkWorld (CONFIG w) (stdin w)
       (trace w ++ map (cluster_file sample_render
                          (cfg_get (CONFIG w) "s3_event_buckets"))
                     ["prod"; "staging"])).
Proof.
  intros w.
  assert (Hno : ~ In "main" ["prod"; "staging"]).
  { simpl. intuition discriminate. }
  destruct (generate_tf_files_all sample_render w
              [("prod", PyStr "us-east-1"); ("staging", PyStr "us-west-2")]
              eq_refl Hno) as [H _].
  exact H.
Defined.

(** ** Further properties of deploy *)

(** X9.  deploy resolves its targets before anything else: without a
    clusters section it raises KeyError at once, whatever the selector,
    having built no package and run no command. *)
Theorem deploy_needs_clusters exit_ok upload (processor : string) (w : World) e
    (Hsec : cfg_getitem (CONFIG w) "clusters" = Err e) :
  deploy exit_ok upload processor w = (Raise e, w) /\ e = KeyError "clusters".
Proof.
  split.
  - unfold deploy, bind at 1 2, get_CONFIG, lift, stream_alert_targets.
    rewrite Hsec. reflexivity.
  - revert Hsec. unfold cfg_getitem, Dict.getitem.
    destruct (Dict.get (config (CONFIG w)) "clusters"); [discriminate |].
    intros [= <-]. reflexivity.
Qed.

Lemma deploy_needs_clusters_witness :
  let w := mkWorld (mkConfig "variables.json" []) ["yes"] [] in
  deploy always_ok upload_ok "all" w = (Raise (KeyError "clusters"), w) /\
  KeyError "clusters" = KeyError "clusters".
Proof.
  intros w.
  exact (deploy_needs_clusters always_ok upload_ok "all" w (KeyError "clusters")
           eq_refl).
Defined.

(** X10.  With the selector all, a package build that raises ends deploy
    there: when the rule build raises, the alert build is not started;
    when the alert build raises, the rule build has been done; either
    way the exception comes out of deploy, CONFIG is what the failed
    build left, and no plan or apply is run. *)
Theorem deploy_all_build_failure exit_ok upload (w : World)
    (sec : Dict.t pyval) e
    (Hsec : cfg_getitem (CONFIG w) "clusters" = Ok sec) :
  (forall cfg1,
     upload RuleProcessor (CONFIG w) = (Err e, cfg1) ->
     deploy exit_ok upload "all" w
     = (Raise e, mkWorld cfg1 (stdin w) (trace w ++ [Build RuleProcessor]))) /\
  (forall cfg1 cfg2,
     upload RuleProcessor (CONFIG w) = (Ok tt, cfg1) ->
     upload AlertProcessor cfg1 = (Err e, cfg2) ->
     deploy exit_ok upload "all" w
     = (Raise e, mkWorld cfg2 (stdin w)
                   (trace w ++ [Build RuleProcessor; Build AlertProcessor]))).
Proof.
  split.
  - intros cfg1 H1. unfold deploy, bind, get_CONFIG, lift, stream_alert_targets.
    rewrite Hsec. simpl. unfold deploy_rule_processor, package_upload.
    rewrite H1. reflexivity.
  - intros cfg1 cfg2 H1 H2.
    unfold deploy, bind, get_CONFIG, lift, stream_alert_targets.
    rewrite Hsec. simpl.
    unfold deploy_rule_processor, deploy_alert_processor, package_upload.
    rewrite H1. simpl. rewrite H2. simpl. rewrite <- app_assoc. reflexivity.
Qed.

Lemma deploy_all_build_failure_witness :
  let w := mkWorld sample_config ["yes"] [] in
  deploy always_ok upload_raises "all" w
  = (Raise ValueError,
     mkWorld sample_config (stdin w) (trace w ++ [Build RuleProcessor])).
Proof.
  intros w.
  destruct (deploy_all_build_failure always_ok upload_raises w
              [("prod", PyStr "us-east-1"); ("staging", PyStr "us-west-2")]
              ValueError eq_refl) as [H _].
  apply H. reflexivity.
Defined.

(** ** The other subcommands *)

(** X11.  'terraform destroy' runs, in this order, the version check,
    the command that disables the remote state, the module resolution
    and a plan carrying -destroy and no target; none of their results
    stops it.  The only command that changes infrastructure it can run
    after that is 'terraform destroy' with the variables file and no
    other flag; CONFIG is left alone. *)
Theorem terraform_destroy_commands exit_ok (w : World) r w'
    (Hrun : terraform_destroy exit_ok w = (r, w')) :
  CONFIG w' = CONFIG w /\
  exists ok0 ok1 ok2 ok3 tail,
    events_since w w'
    = Run ["terraform"; "version"] true ok0
        :: Run ["terraform"; "remote"; "config"; "-disable"] false ok1
        :: Run ["terraform"; "get"] true ok2
        :: Run ["terraform"; "plan"; "-var-file=../" +:+ filename (CONFIG w);
                "-destroy"] false ok3
        :: tail /\
    forall ev, In ev tail -> is_mutation ev = true ->
      exists ok,
        ev = Run ["terraform"; "destroy"; "-var-file=../" +:+ filename (CONFIG w)]
               false ok.
Proof.
  revert Hrun. unfold terraform_destroy, bind at 1 2.
  unfold terraform_check, bind at 1, run_command at 1 2, ret at 1. simpl.
  set (ok0 := exit_ok (trace w) _).
  set (ok1 := exit_ok (trace w ++ _) _).
  set (w2 := mkWorld _ _ _).
  unfold bind. destruct (tf_runner exit_ok [] (Some "destroy") false w2)
    as [r0 w3] eqn:Htf.
  intros Hrun. assert (w3 = w') as ->
    by (destruct r0; unfold ret in Hrun; congruence).
  clear Hrun.
  apply tf_runner_shape in Htf.
  destruct Htf as [(Hr & _) | (Hcfg & pre & ok2 & tail & Hpre & Htr & Hp)];
    [discriminate |].
  simpl in Hpre. subst pre. simpl in Hcfg, Htr, Hp.
  split; [exact Hcfg |].
  assert (Hev : forall t, trace w' = (trace w ++ [Run ["terraform"; "version"] true ok0])
                 ++ Run ["terraform"; "remote"; "config"; "-disable"] false ok1
                 :: Run ["terraform"; "get"] true ok2 :: t ->
            events_since w w' = Run ["terraform"; "version"] true ok0
                 :: Run ["terraform"; "remote"; "config"; "-disable"] false ok1
                 :: Run ["terraform"; "get"] true ok2 :: t).
  { intros t Ht. apply events_since_app. rewrite Ht, <- app_assoc. reflexivity. }
  assert (Hprompt : forall l ev, In ev (prompts l) -> is_mutation ev = true -> False).
  { intros l ev Hin Hm. pose proof (prompts_quiet l) as Hq.
    rewrite List.Forall_forall in Hq. destruct (Hq _ Hin) as (Hq1 & _). congruence. }
  rewrite <- app_assoc in Htr. simpl in Htr.
  inversion Hp; subst; clear Hp.
  - exists ok0, ok1, ok2, false, []. split; [apply Hev; exact Htr |].
    intros ev [].
  - exists ok0, ok1, ok2, true, (prompts (stdin w) ++ [Prompt None]).
    split; [apply Hev; exact Htr |].
    intros ev Hin Hm. exfalso. apply in_app_or in Hin.
    destruct Hin as [Hin | [<- | []]]; [eapply Hprompt; eauto | discriminate].
  - exists ok0, ok1, ok2, true, (prompts (pre ++ ["no"])).
    split; [apply Hev; exact Htr |].
    intros ev Hin Hm. exfalso. eapply Hprompt; eauto.
  - exists ok0, ok1, ok2, true, (prompts (pre ++ ["yes"]) ++ [Run cmd' false ok]).
    split; [apply Hev; exact Htr |].
    intros ev Hin Hm. apply in_app_or in Hin.
    destruct Hin as [Hin | [<- | []]]; [exfalso; eapply Hprompt; eauto |].
    change (final_command (plan_command (CONFIG w) [] (Some "destroy"))
              (Some "destroy") = Ok cmd') in H1.
    rewrite final_command_exact in H1. injection H1 as <-. eauto.
Qed.

Lemma terraform_destroy_commands_witness :
  let w := mkWorld sample_config ["yes"] [] in
  let rw := terraform_destroy always_ok w in
  CONFIG (snd rw) = CONFIG w /\
  exists ok0 ok1 ok2 ok3 tail,
    events_since w (snd rw)
    = Run ["terraform"; "version"] true ok0
        :: Run ["terraform"; "remote"; "config"; "-disable"] false ok1
        :: Run ["terraform"; "get"] true ok2
        :: Run ["terraform"; "plan"; "-var-file=../" +:+ filename (CONFIG w);
                "-destroy"] false ok3
        :: tail /\
    forall ev, In ev tail -> is_mutation ev = true ->
      exists ok,
        ev = Run ["terraform"; "destroy"; "-var-file=../" +:+ filename (CONFIG w)]
               false ok.
Proof.
  intros w rw.
  exact (terraform_destroy_commands always_ok w (fst rw) (snd rw) eq_refl).
Defined.

Lemma rollback_returns_clusters (w : World) w1 :
  rollback w = (Ret tt, w1) ->
  exists sec, cfg_getitem (CONFIG w) "clusters" = Ok sec /\
              cfg_getitem (CONFIG w1) "clusters" = Ok sec.
Proof.
  intros Hrun. pose proof (rollback_frame_all _ _ _ Hrun) as (_ & _ & _ & Hk).
  specialize (Hk "clusters" ltac:(discriminate)).
  revert Hrun. unfold rollback, bind at 1 2, get_CONFIG, lift.
  destruct (cfg_getitem (CONFIG w) "clusters") as [sec | x] eqn:Hsec;
    [| discriminate].
  intros _. exists sec. split; [reflexivity |].
  unfold cfg_getitem, Dict.getitem, cfg_get in *. rewrite Hk. exact Hsec.
Qed.

(** X12.  'lambda rollback' runs the plan/apply cycle only after
    rollback has returned normally: when rollback raises, the exception
    comes out and no command has been run; otherwise the cycle is run,
    with the state refresh, on the stream_alert module of every cluster
    of the configuration, in the world rollback left. *)
Theorem lambda_rollback_runs exit_ok (w : World) r w'
    (Hrun : lambda_rollback exit_ok w = (r, w')) :
  (forall e w1, rollback w = (Raise e, w1) ->
     r = Raise e /\ w' = w1 /\ trace w' = trace w) /\
  (forall w1, rollback w = (Ret tt, w1) ->
     exists sec r0,
       cfg_getitem (CONFIG w) "clusters" = Ok sec /\
       tf_runner exit_ok
         (map (fun x => "module.stream_alert_" +:+ x) (Dict.keys sec)) None true w1
       = (r0, w') /\
       r = forget r0).
Proof.
  split.
  - intros e w1 Hroll. revert Hrun. unfold lambda_rollback, bind at 1.
    rewrite Hroll. intros [= <- <-]. repeat split.
    apply rollback_frame_all in Hroll. tauto.
  - intros w1 Hroll. destruct (rollback_returns_clusters _ _ Hroll)
      as (sec & Hsec & Hsec1).
    exists sec. revert Hrun. unfold lambda_rollback, bind at 1. rewrite Hroll.
    unfold bind at 1 2, get_CONFIG, lift, stream_alert_targets. rewrite Hsec1.
    unfold ret at 1, bind.
    destruct (tf_runner exit_ok _ None true w1) as [r0 w3].
    intros Hrun. exists r0. split; [exact Hsec |].
    destruct r0; unfold ret in Hrun; injection Hrun as <- <-;
      split; reflexivity.
Qed.

Lemma lambda_rollback_runs_witness :
  let w := mkWorld sample_config ["yes"] [] in
  lambda_rollback always_ok w = (Raise (KeyError "{}_versions"), w) /\
  trace w = trace w.
Proof.
  intros w.
  destruct (lambda_rollback_runs always_ok w
              (fst (lambda_rollback always_ok w))
              (snd (lambda_rollback always_ok w)) eq_refl) as [H _].
  destruct (H (KeyError "{}_versions") w eq_refl) as (H1 & H2 & H3).
  split; [| reflexivity].
  rewrite (surjective_pairing (lambda_rollback always_ok w)), H1, H2.
  reflexivity.
Defined.

Lemma grows_ret {A} (a : A) : grows (ret a).
Proof. intros w r w' [= <- <-]. exists []. rewrite app_nil_r. reflexivity. Qed.

Lemma grows_lift {A} (x : result A) : grows (lift x).
Proof.
  destruct x; intros w r w' [= <- <-]; exists []; rewrite app_nil_r; reflexivity.
Qed.

Lemma grows_get_CONFIG : grows get_CONFIG.
Proof. intros w r w' [= <- <-]. exists []. rewrite app_nil_r. reflexivity. Qed.

Lemma grows_bind {A B} (m : M A) (k : A -> M B) :
  grows m -> (forall a, grows (k a)) -> grows (bind m k).
Proof.
  intros Hm Hk w r w'. unfold bind. destruct (m w) as [o w1] eqn:Hw1.
  destruct (Hm _ _ _ Hw1) as (evs1 & E1). destruct o.
  - intros Hrun. destruct (Hk _ _ _ _ Hrun) as (evs2 & E2).
    exists (evs1 ++ evs2). rewrite E2, E1, <- app_assoc. reflexivity.
  - intros [= <- <-]. eauto.
  - intros [= <- <-]. eauto.
Qed.

Lemma grows_run_command exit_ok args quiet : grows (run_command exit_ok args quiet).
Proof. intros w r w' [= <- <-]. simpl. eauto. Qed.

Lemma grows_refresh_tf_state exit_ok : grows (refresh_tf_state exit_ok).
Proof.
  intros w r w' Hrun.
  destruct (refresh_tf_state_cases exit_ok w) as [[x Hx] | (opts & ok & _ & Hx)];
    rewrite Hx in Hrun; injection Hrun as <- <-; simpl; eauto.
  exists []. rewrite app_nil_r. reflexivity.
Qed.

Lemma grows_tf_runner exit_ok targets action refresh_state :
  grows (tf_runner exit_ok targets action refresh_state).
Proof.
  intros w r w' Hrun. apply tf_runner_shape in Hrun.
  destruct Hrun as [(_ & -> & _) | (_ & pre & ok & tail & _ & Htr & _)]; eauto.
  exists []. rewrite app_nil_r. reflexivity.
Qed.

Lemma grows_package_upload upload p : grows (package_upload upload p).
Proof.
  intros w r w'. unfold package_upload.
  destruct (upload p (CONFIG w)) as [[[] | e] cfg']; intros [= <- <-]; simpl; eauto.
Qed.

Lemma grows_deploy exit_ok upload processor :
  grows (deploy exit_ok upload processor).
Proof.
  unfold deploy. apply grows_bind; [apply grows_get_CONFIG | intros cfg].
  apply grows_bind; [apply grows_lift | intros targets].
  apply grows_bind.
  - destruct (String.eqb processor "rule"); [apply grows_package_upload |].
    destruct (String.eqb processor "alert"); [apply grows_package_upload |].
    destruct (String.eqb processor "all"); [| apply grows_ret].
    apply grows_bind; [| intros _]; apply grows_package_upload.
  - intros _. apply grows_bind; [apply grows_tf_runner | intros _; apply grows_ret].
Qed.

Lemma terraform_check_runs exit_ok (w : World) :
  terraform_check exit_ok w
  = (Ret tt,
     mkWorld (CONFIG w) (stdin w)
       (trace w ++ [Run ["terraform"; "version"] true
                      (exit_ok (trace w) ["terraform"; "version"])])).
Proof. reflexivity. Qed.

Lemma generate_tf_files_raises render cfg lines tr (sec : Dict.t pyval)
    (pre post : list string) :
  cfg_getitem cfg "clusters" = Ok sec ->
  Dict.keys sec = pre ++ "main" :: post ->
  ~ In "main" pre ->
  generate_tf_files render (mkWorld cfg lines tr)
  = (Raise (InvalidClusterName "Rename cluster main to something else!"),
     mkWorld cfg lines
       (tr ++ map (cluster_file render (cfg_get cfg "s3_event_buckets")) pre)).
Proof.
  intros Hsec Hkeys Hpre.
  unfold generate_tf_files, bind, get_CONFIG, lift. simpl. rewrite Hsec.
  unfold ret. rewrite Hkeys. apply generate_loop_reserved. exact Hpre.
Qed.

Lemma generate_tf_files_returns render cfg lines tr (sec : Dict.t pyval) :
  cfg_getitem cfg "clusters" = Ok sec ->
  ~ In "main" (Dict.keys sec) ->
  generate_tf_files render (mkWorld cfg lines tr)
  = (Ret tt,
     mkWorld cfg lines
       (tr ++ map (cluster_file render (cfg_get cfg "s3_event_buckets"))
                (Dict.keys sec))).
Proof.
  intros Hsec Hno.
  unfold generate_tf_files, bind, get_CONFIG, lift. simpl. rewrite Hsec.
  unfold ret. apply generate_loop_all. exact Hno.
Qed.

(** X13.  'terraform init' with a cluster of the reserved name stops at
    the file generation: InvalidClusterName comes out, and all that has
    happened is the version check and the files of the clusters met
    before main; no plan, no build, no apply. *)
Theorem terraform_init_reserved exit_ok upload render (w : World)
    (sec : Dict.t pyval) (pre post : list string)
    (Hsec : cfg_getitem (CONFIG w) "clusters" = Ok sec)
    (Hkeys : Dict.keys sec = pre ++ "main" :: post)
    (Hpre : ~ In "main" pre) :
  exists ok,
    terraform_init exit_ok upload render w
    = (Raise (InvalidClusterName "Rename cluster main to something else!"),
       mkWorld (CONFIG w) (stdin w)
         (trace w ++ Run ["terraform"; "version"] true ok
            :: map (cluster_file render (cfg_get (CONFIG w) "s3_event_buckets"))
                 pre)).
Proof.
  eexists. unfold terraform_init, bind at 1.
  rewrite terraform_check_runs. unfold bind at 1.
  rewrite (generate_tf_files_raises render _ _ _ sec pre post Hsec Hkeys Hpre).
  rewrite <- app_assoc. reflexivity.
Qed.

Lemma terraform_init_reserved_witness :
  exists ok,
    terraform_init always_ok upload_ok sample_render (mkWorld reserved_config [] [])
    = (Raise (InvalidClusterName "Rename cluster main to something else!"),
       mkWorld reserved_config []
         ([] ++ Run ["terraform"; "version"] true ok
            :: map (cluster_file sample_render
                      (cfg_get reserved_config "s3_event_buckets")) ["test"])).
Proof.
  assert (Hpre : ~ In "main" ["test"]).
  { simpl. intuition discriminate. }
  exact (terraform_init_reserved always_ok upload_ok sample_render
           (mkWorld reserved_config [] [])
           [("test", PyStr "us-east-1"); ("main", PyStr "us-west-2")]
           ["test"] [] eq_refl eq_refl Hpre).
Defined.

(** X14.  'terraform init' on well-named clusters starts with the
    version check, then writes the file of every cluster, then, with no
    state refresh in between, resolves the modules and plans exactly the
    five bootstrap resources; whatever follows comes after these. *)
Theorem terraform_init_bootstrap exit_ok upload render (w : World) r w'
    (sec : Dict.t pyval)
    (Hrun : terraform_init exit_ok upload render w = (r, w'))
    (Hsec : cfg_getitem (CONFIG w) "clusters" = Ok sec)
    (Hno : ~ In "main" (Dict.keys sec)) :
  exists ok0 ok1 ok2 rest,
    events_since w w'
    = Run ["terraform"; "version"] true ok0
        :: map (cluster_file render (cfg_get (CONFIG w) "s3_event_buckets"))
             (Dict.keys sec)
        ++ Run ["terraform"; "get"] true ok1
        :: Run ("terraform" :: "plan" :: ("-var-file=../" +:+ filename (CONFIG w))
                  :: map (fun x => "-target=" +:+ x) init_targets) false ok2
        :: rest.
Proof.
  revert Hrun. unfold terraform_init, bind at 1.
  rewrite terraform_check_runs. unfold bind at 1.
  set (ok0 := exit_ok (trace w) _).
  rewrite (generate_tf_files_returns render _ _ _ sec Hsec Hno).
  set (files := map _ (Dict.keys sec)).
  set (w2 := mkWorld _ _ _).
  intros Hrun.
  assert (Hgrow : grows (refresh_tf_state exit_ok ;;;
                         deploy exit_ok upload "all" ;;;
                         tf_runner exit_ok [] None true ;;; ret tt)).
  { apply grows_bind; [apply grows_refresh_tf_state | intros _].
    apply grows_bind; [apply grows_deploy | intros _].
    apply grows_bind; [apply grows_tf_runner | intros _; apply grows_ret]. }
  unfold bind at 1 in Hrun.
  destruct (tf_runner exit_ok init_targets None false w2) as [r1 w3] eqn:Htf.
  assert (Hmore : exists more, trace w' = trace w3 ++ more).
  { destruct r1.
    - apply Hgrow in Hrun. exact Hrun.
    - injection Hrun as <- <-. exists []. rewrite app_nil_r. reflexivity.
    - injection Hrun as <- <-. exists []. rewrite app_nil_r. reflexivity. }
  destruct Hmore as (more & Hmore).
  apply tf_runner_shape in Htf.
  destruct Htf as [(Hr & _) | (_ & pre & ok1 & tail & Hpre & Htr & Hp)];
    [discriminate |].
  simpl in Hpre. subst pre.
  apply plan_apply_tail in Hp. destruct Hp as (ok2 & post & -> & _).
  exists ok0, ok1, ok2, (post ++ more).
  apply events_since_app. rewrite Hmore, Htr. unfold w2. simpl.
  rewrite <- !app_assoc. simpl. reflexivity.
Qed.

Lemma terraform_init_bootstrap_witness :
  let w := mkWorld sample_config ["no"; "yes"] [] in
  let rw := terraform_init always_ok upload_ok sample_render w in
  exists ok0 ok1 ok2 rest,
    events_since w (snd rw)
    = Run ["terraform"; "version"] true ok0
        :: map (cluster_file sample_render (cfg_get (CONFIG w) "s3_event_buckets"))
             ["prod"; "staging"]
        ++ Run ["terraform"; "get"] true ok1
        :: Run ("terraform" :: "plan" :: ("-var-file=../" +:+ filename (CONFIG w))
                  :: map (fun x => "-target=" +:+ x) init_targets) false ok2
        :: rest.
Proof.
  intros w rw.
  assert (Hno : ~ In "main" ["prod"; "staging"]).
  { simpl. intuition discriminate. }
  exact (terraform_init_bootstrap always_ok upload_ok sample_render w
           (fst rw) (snd rw)
           [("prod", PyStr "us-east-1"); ("staging", PyStr "us-west-2")]
           eq_refl eq_refl Hno).
Defined.

(** ** What the result of tf_runner tells *)

Lemma In_prompt_tail (refresh_state : bool) (pre tl : list Event) a qa oa b qb ob x :
  refresh_events refresh_state pre ->
  In (Prompt x) (pre ++ Run a qa oa :: Run b qb ob :: tl) <-> In (Prompt x) tl.
Proof.
  intros Hpre. apply refresh_events_quiet in Hpre. split.
  - intros Hin. apply in_app_or in Hin.
    destruct Hin as [Hin | [Hin | [Hin | Hin]]]; try discriminate; [| exact Hin].
    rewrite List.Forall_forall in Hpre.
    destruct (Hpre _ Hin) as (_ & _ & _ & Hq). discriminate.
  - intros Hin. apply in_or_app. right. right. right. exact Hin.
Qed.

Lemma In_prompts (x : option string) (lines : list string) :
  In (Prompt x) (prompts lines) <-> exists l, x = Some l /\ In l lines.
Proof.
  split; [apply prompts_In |].
  intros (l & -> & Hl). unfold prompts. apply in_map_iff. eauto.
Qed.

(** X15.  What tf_runner returns is decided by the plan and by the
    operator alone: it returns true exactly when the operator's yes was
    read, and returns false exactly when the plan failed or the
    operator's no was read.  What the module resolution and the last
    command reported plays no part. *)
Theorem tf_runner_result exit_ok targets action refresh_state w r w'
    (Hrun : tf_runner exit_ok targets action refresh_state w = (r, w')) :
  (r = Ret true <-> In (Prompt (Some "yes")) (events_since w w')) /\
  (r = Ret false <->
     plan_result (events_since w w') = Some false \/
     In (Prompt (Some "no")) (events_since w w')).
Proof.
  apply tf_runner_shape in Hrun.
  destruct Hrun as [(_ & -> & e & ->) | (Hcfg & pre & ok & tail & Hpre & Htr & Hp)].
  - unfold events_since. rewrite drop_all. unfold plan_result. simpl.
    repeat split; try discriminate; try tauto. intros [? | []]. discriminate.
  - rewrite (events_since_app _ _ _ Htr).
    pose proof (plan_command_event (CONFIG w) targets action false) as Hpl.
    assert (Hfind : forall b rest,
      plan_result (pre ++ Run ["terraform"; "get"] true ok
                     :: Run (plan_command (CONFIG w) targets action) false b :: rest)
      = Some b).
    { intros b rest. unfold plan_result.
      rewrite find_skip by (weaken_all (refresh_events_quiet _ _ Hpre)). simpl.
      destruct (Hpl b) as (-> & _). reflexivity. }
    assert (Hrej : forall l v, Forall rejected_reply l -> v = "yes" \/ v = "no" ->
                     ~ In (Prompt (Some v)) (prompts l)).
    { intros l v Hl Hv Hin. apply prompts_In in Hin.
      destruct Hin as (x & [= <-] & Hx). eapply rejected_not_In; eauto. }
    assert (Hnone : forall l, ~ In (Prompt None) (prompts l)).
    { intros l Hin. apply prompts_In in Hin. destruct Hin as (x & Hx & _).
      discriminate. }
    inversion Hp; subst; clear Hp;
      rewrite Hfind, !(In_prompt_tail _ _ _ _ _ _ _ _ _ _ Hpre).
    + simpl. repeat split; try discriminate; tauto.
    + rewrite ?in_app_iff. simpl.
      repeat split; try discriminate; try tauto; try solve [intros _; auto 6];
        intros HH; decompose [or] HH; clear HH; try discriminate;
        try contradiction; exfalso;
        solve [eapply Hnone; eassumption
              | eapply Hrej; [eassumption | | eassumption]; auto].
    + unfold prompts in *. rewrite !map_app, !in_app_iff. simpl.
      repeat split; try discriminate; try tauto; try solve [intros _; auto 6];
        intros HH; decompose [or] HH; clear HH; try discriminate;
        try contradiction; exfalso;
        solve [eapply Hnone; eassumption
              | eapply Hrej; [eassumption | | eassumption]; auto].
    + unfold prompts in *. rewrite !in_app_iff, !map_app, !in_app_iff. simpl.
      repeat split; try discriminate; try tauto; try solve [intros _; auto 6];
        intros HH; decompose [or] HH; clear HH; try discriminate;
        try contradiction; exfalso;
        solve [eapply Hnone; eassumption
              | eapply Hrej; [eassumption | | eassumption]; auto].
Qed.

Lemma tf_runner_result_witness :
  let w := mkWorld sample_config ["yes"] [] in
  let rw := tf_runner never_ok [] None false w in
  fst rw = Ret false /\
  plan_result (events_since w (snd rw)) = Some false /\
  (fst rw = Ret true <-> In (Prompt (Some "yes")) (events_since w (snd rw))) /\
  (fst rw = Ret false <->
     plan_result (events_since w (snd rw)) = Some false \/
     In (Prompt (Some "no")) (events_since w (snd rw))).
Proof.
  intros w rw. split; [reflexivity |]. split; [reflexivity |].
  exact (tf_runner_result never_ok [] None false w (fst rw) (snd rw) eq_refl).
Defined.
